(** * Panagora pitch deck generator: a model of [create_presentation.py]

    The script draws four slides through the python-pptx drawing API:
    rectangles, ovals, text boxes and a best-effort logo picture, all at
    literal coordinates.  This development embeds the three renderers
    ([add_title_slide], [add_two_column_slide],
    [add_content_slide_with_sections]) as programs of a small state and
    exception monad over the slide under construction, and proves the
    layout properties of the specification about them.

    Conventions of the embedding:
    - a length is a number of EMU (English Metric Units) held in [Z], as
      python-pptx's [Length] is an [int]; [Inches] takes a Python float
      (IEEE binary64, here Rocq's primitive [float]) and truncates;
    - a Python [str] is a [string] holding its UTF-8 bytes;
    - a slide is the list of its shapes in insertion (paint) order; the
      objects that the drawing calls hand back ([bg], [tf], [p], ...) are
      handles into that list, and every attribute assignment goes through
      its handle;
    - the file system is a function from a path to what opening the image
      there gives: an image, or the exception that the load raises. *)

From Stdlib Require Import ZArith List String Ascii Bool Lia Floats DecimalString.
Import ListNotations.

Set Warnings "-inexact-float".

Local Open Scope string_scope.
Local Open Scope list_scope.
Local Open Scope Z_scope.

(** ** Lengths *)

Module Length.

Definition EMUS_PER_INCH : Z := 914400.
Definition EMUS_PER_PT : Z := 12700.

(** Python's [int(f)] on a float: truncation toward zero.  ([int] of an
    infinity or a NaN raises in Python; no length of this program is one,
    and the model gives 0 there.) *)
Definition int (f : float) : Z :=
  match Prim2SF f with
  | S754_finite s m e =>
      let v := if 0 <=? e then Z.shiftl (Zpos m) e
               else Z.shiftr (Zpos m) (- e) in
      if s then - v else v
  | _ => 0
  end.

(** Python's conversion of an [int] operand in mixed arithmetic: the
    nearest binary64 value, ties to even.  Both branches compute it; the
    first is the machine conversion, for an [int] that fits 63 bits. *)
Definition float_of_int (z : Z) : float :=
  if (0 <=? z) && (z <? 9223372036854775808)
  then of_uint63 (Uint63.of_Z z)
  else SF2Prim (binary_normalize prec emax z 0 false).

(** [Inches(x)] for a float [x]: [int(x * 914400)]. *)
Definition Inches (x : float) : Z :=
  int (x * float_of_int EMUS_PER_INCH)%float.

(** [Inches(n)] for an [int] literal [n] (the script has [Inches(10)]). *)
Definition Inches_int (n : Z) : Z := n * EMUS_PER_INCH.

(** [Pt(n)] for an [int] literal. *)
Definition Pt (n : Z) : Z := n * EMUS_PER_PT.

End Length.
Export Length.

Arguments Inches : simpl never.
Arguments Inches_int : simpl never.
Arguments Pt : simpl never.

(** ** Colours and enumerations *)

Inductive RGBColor : Type := RGB (r g b : Z).

(* Panagora brand colors from website *)
Definition NAVY : RGBColor := RGB 0 51 102.
Definition ROYAL_BLUE : RGBColor := RGB 0 102 153.
Definition GOLD : RGBColor := RGB 0 153 153.
Definition CHARCOAL : RGBColor := RGB 51 51 51.
Definition LIGHT_GRAY : RGBColor := RGB 240 243 245.
Definition WHITE : RGBColor := RGB 255 255 255.

Definition LOGO_PATH : string := "c:\Users\bwilzbach\Panagora\panagora_logo.png".

Inductive MSO_SHAPE : Type := RECTANGLE | ROUNDED_RECTANGLE | OVAL.
Inductive PP_ALIGN : Type := LEFT | CENTER.

Definition RGBColor_eqb (c d : RGBColor) : bool :=
  match c, d with
  | RGB r g b, RGB r' g' b' => (r =? r') && (g =? g') && (b =? b')
  end.

(** ** Shapes, text frames and paragraphs *)

(** The fill of a shape, and of its outline.  [Inherited] is the state of
    a new shape; [fill.solid()] gives [Solid None], assigning
    [fore_color.rgb] gives [Solid (Some c)], [fill.background()] gives
    [NoFill]. *)
Inductive FillFormat : Type :=
| Inherited
| Solid (rgb : option RGBColor)
| NoFill.

Record paragraph : Type := mkParagraph {
  text : string;
  font_size : option Z;
  font_bold : option bool;
  font_italic : option bool;
  font_color : option RGBColor;
  alignment : option PP_ALIGN;
  space_before : option Z
}.

(** The paragraph every new text frame starts with. *)
Definition empty_paragraph : paragraph :=
  mkParagraph "" None None None None None None.

Record TextFrame : Type := mkTextFrame {
  word_wrap : option bool;
  paragraphs : list paragraph
}.

Definition new_text_frame : TextFrame := mkTextFrame None [empty_paragraph].

Inductive shape_kind : Type :=
| AutoShape (t : MSO_SHAPE)
| TextBox
| Picture (image_file : string).

Record shape : Type := mkShape {
  kind : shape_kind;
  left : Z;
  top : Z;
  width : Z;
  height : Z;
  fill : FillFormat;
  line : FillFormat;
  text_frame : TextFrame
}.

(** Paint order is insertion order. *)
Definition slide : Type := list shape.

Record presentation : Type := mkPresentation {
  slide_width : Z;
  slide_height : Z;
  slides : list slide
}.

(** ** The file system, as far as [add_picture] sees it *)

Inductive exn : Type :=
| FileNotFoundError (path : string)
| UnidentifiedImageError (path : string)
| TypeError (msg : string)
| IndexError (msg : string).

(** An image file, reduced to what placing it needs: python-pptx keeps the
    aspect ratio, so a picture placed with only [height] given gets the
    width [scaled_cx height]. *)
Record image : Type := mkImage { scaled_cx : Z -> Z }.

Definition filesystem : Type := string -> exn + image.

(** ** The monad of drawing calls

    State: the slide being drawn.  An exception keeps the state reached
    when it was raised, as Python does. *)

Inductive result (A : Type) : Type :=
| Ok (a : A) (s : slide)
| Raise (e : exn) (s : slide).
Arguments Ok {A} a s.
Arguments Raise {A} e s.

Definition M (A : Type) : Type := slide -> result A.

Definition ret {A} (a : A) : M A := fun s => Ok a s.

Definition bind {A B} (m : M A) (k : A -> M B) : M B :=
  fun s => match m s with
           | Ok a s' => k a s'
           | Raise e s' => Raise e s'
           end.

Declare Scope draw_scope.
Delimit Scope draw_scope with draw.
Notation "x <- m ;; k" := (bind m (fun x => k))
  (at level 61, m at next level, right associativity) : draw_scope.
Notation "m ;; k" := (bind m (fun _ => k))
  (at level 61, right associativity) : draw_scope.
Local Open Scope draw_scope.

(** [try: m  except: pass] *)
Definition try_except_pass {A} (m : M A) : M unit :=
  fun s => match m s with
           | Ok _ s' => Ok tt s'
           | Raise _ s' => Ok tt s'
           end.

(** [for i, x in enumerate(xs): body], counting from [i]; the counter is a
    Python [int]. *)
Fixpoint for_enumerate_from {A} (i : Z) (xs : list A)
    (body : Z -> A -> M unit) : M unit :=
  match xs with
  | [] => ret tt
  | x :: xs' => body i x ;; for_enumerate_from (i + 1) xs' body
  end.

Definition for_enumerate {A} (xs : list A) (body : Z -> A -> M unit) : M unit :=
  for_enumerate_from 0 xs body.

(** ** Handles and attribute assignment *)

(** A shape handle is the shape's position on the slide; a paragraph
    handle adds the paragraph's position in the shape's text frame. *)
Definition shape_ref : Type := nat.
Definition paragraph_ref : Type := (nat * nat)%type.

Fixpoint update_nth {A} (n : nat) (f : A -> A) (l : list A) : list A :=
  match l, n with
  | [], _ => []
  | x :: l', O => f x :: l'
  | x :: l', S n' => x :: update_nth n' f l'
  end.

Definition with_fill (c : FillFormat) (sh : shape) : shape :=
  mkShape (kind sh) (left sh) (top sh) (width sh) (height sh) c (line sh)
          (text_frame sh).

Definition with_line (c : FillFormat) (sh : shape) : shape :=
  mkShape (kind sh) (left sh) (top sh) (width sh) (height sh) (fill sh) c
          (text_frame sh).

Definition with_text_frame (f : TextFrame -> TextFrame) (sh : shape) : shape :=
  mkShape (kind sh) (left sh) (top sh) (width sh) (height sh) (fill sh)
          (line sh) (f (text_frame sh)).

Definition with_paragraphs (f : list paragraph -> list paragraph)
    (tf : TextFrame) : TextFrame :=
  mkTextFrame (word_wrap tf) (f (paragraphs tf)).

Definition modify_shape (h : shape_ref) (f : shape -> shape) : M unit :=
  fun s => Ok tt (update_nth h f s).

Definition modify_paragraph (p : paragraph_ref) (f : paragraph -> paragraph)
    : M unit :=
  modify_shape (fst p) (with_text_frame (with_paragraphs (update_nth (snd p) f))).

(** ** The drawing API (python-pptx), as far as the script calls it *)

Definition no_text_frame : TextFrame := mkTextFrame None [].

Definition new_shape (k : shape_kind) (x y w h : Z) : shape :=
  mkShape k x y w h Inherited Inherited new_text_frame.

(** [slide.shapes.add_shape(t, x, y, w, h)] *)
Definition add_shape (t : MSO_SHAPE) (x y w h : Z) : M shape_ref :=
  fun s => Ok (List.length s) (s ++ [new_shape (AutoShape t) x y w h]).

(** [slide.shapes.add_textbox(x, y, w, h)] *)
Definition add_textbox (x y w h : Z) : M shape_ref :=
  fun s => Ok (List.length s) (s ++ [new_shape TextBox x y w h]).

(** [slide.shapes.add_picture(path, x, y, height=h)]: the image is opened
    before anything is added, so a failed load leaves the slide as it was. *)
Definition add_picture (fs : filesystem) (path : string) (x y h : Z)
    : M shape_ref :=
  fun s => match fs path with
           | inr img =>
               Ok (List.length s)
                  (s ++ [mkShape (Picture path) x y (scaled_cx img h) h
                                 Inherited Inherited no_text_frame])
           | inl e => Raise e s
           end.

(** [sh.fill.solid()] *)
Definition fill_solid (sh : shape_ref) : M unit :=
  modify_shape sh (with_fill (Solid None)).

(** [sh.fill.fore_color.rgb = c]; a fill that is not solid has no
    foreground colour and the access raises. *)
Definition fill_fore_color_rgb (sh : shape_ref) (c : RGBColor) : M unit :=
  fun s => match nth_error s sh with
           | Some x =>
               match fill x with
               | Solid _ => Ok tt (update_nth sh (with_fill (Solid (Some c))) s)
               | _ => Raise (TypeError "fill type has no foreground color") s
               end
           | None => Ok tt s
           end.

(** [sh.line.fill.background()] *)
Definition line_fill_background (sh : shape_ref) : M unit :=
  modify_shape sh (with_line NoFill).

(** [sh.line.color.rgb = c]; [line.color] makes the outline solid first. *)
Definition line_color_rgb (sh : shape_ref) (c : RGBColor) : M unit :=
  modify_shape sh (with_line (Solid (Some c))).

(** [tf = sh.text_frame] *)
Definition get_text_frame (sh : shape_ref) : M shape_ref := ret sh.

(** [tf.word_wrap = b] *)
Definition set_word_wrap (tf : shape_ref) (b : bool) : M unit :=
  modify_shape tf
    (with_text_frame (fun t => mkTextFrame (Some b) (paragraphs t))).

(** [p = tf.paragraphs[0]] *)
Definition paragraphs_0 (tf : shape_ref) : M paragraph_ref :=
  fun s => match nth_error s tf with
           | Some x =>
               match paragraphs (text_frame x) with
               | [] => Raise (IndexError "list index out of range") s
               | _ :: _ => Ok (tf, 0%nat) s
               end
           | None => Ok (tf, 0%nat) s
           end.

(** [p = tf.add_paragraph()] *)
Definition add_paragraph (tf : shape_ref) : M paragraph_ref :=
  fun s => match nth_error s tf with
           | Some x =>
               Ok (tf, List.length (paragraphs (text_frame x)))
                  (update_nth tf
                     (with_text_frame
                        (with_paragraphs (fun ps => ps ++ [empty_paragraph])))
                     s)
           | None => Ok (tf, 0%nat) s
           end.

Definition with_text (v : string) (p : paragraph) : paragraph :=
  mkParagraph v (font_size p) (font_bold p) (font_italic p) (font_color p)
              (alignment p) (space_before p).
Definition with_font_size (v : Z) (p : paragraph) : paragraph :=
  mkParagraph (text p) (Some v) (font_bold p) (font_italic p) (font_color p)
              (alignment p) (space_before p).
Definition with_font_bold (v : bool) (p : paragraph) : paragraph :=
  mkParagraph (text p) (font_size p) (Some v) (font_italic p) (font_color p)
              (alignment p) (space_before p).
Definition with_font_italic (v : bool) (p : paragraph) : paragraph :=
  mkParagraph (text p) (font_size p) (font_bold p) (Some v) (font_color p)
              (alignment p) (space_before p).
Definition with_font_color (v : RGBColor) (p : paragraph) : paragraph :=
  mkParagraph (text p) (font_size p) (font_bold p) (font_italic p) (Some v)
              (alignment p) (space_before p).
Definition with_alignment (v : PP_ALIGN) (p : paragraph) : paragraph :=
  mkParagraph (text p) (font_size p) (font_bold p) (font_italic p)
              (font_color p) (Some v) (space_before p).
Definition with_space_before (v : Z) (p : paragraph) : paragraph :=
  mkParagraph (text p) (font_size p) (font_bold p) (font_italic p)
              (font_color p) (alignment p) (Some v).

(** [p.text = v], [p.font.size = v], ... *)
Definition set_text (p : paragraph_ref) (v : string) : M unit :=
  modify_paragraph p (with_text v).
Definition set_font_size (p : paragraph_ref) (v : Z) : M unit :=
  modify_paragraph p (with_font_size v).
Definition set_font_bold (p : paragraph_ref) (v : bool) : M unit :=
  modify_paragraph p (with_font_bold v).
Definition set_font_italic (p : paragraph_ref) (v : bool) : M unit :=
  modify_paragraph p (with_font_italic v).
Definition set_font_color_rgb (p : paragraph_ref) (v : RGBColor) : M unit :=
  modify_paragraph p (with_font_color v).
Definition set_alignment (p : paragraph_ref) (v : PP_ALIGN) : M unit :=
  modify_paragraph p (with_alignment v).
Definition set_space_before (p : paragraph_ref) (v : Z) : M unit :=
  modify_paragraph p (with_space_before v).

(** [if v:] on an optional string: [None] and the empty string are falsy. *)
Definition truthy (v : option string) : bool :=
  match v with
  | Some t => negb (t =? "")%string
  | None => false
  end.

Definition if_truthy (v : option string) (body : string -> M unit) : M unit :=
  match v with
  | Some t => if truthy v then body t else ret tt
  | None => ret tt
  end.

(** [str(n)] on an [int]. *)
Definition str (n : Z) : string := NilZero.string_of_int (Z.to_int n).

(** What a renderer call leaves behind: the slide it returns, or the
    exception that escaped it; either way the presentation has the new
    slide, which [prs.slides.add_slide] appended before any drawing. *)
Inductive outcome : Type :=
| Returned (sl : slide) (prs' : presentation)
| Raised (e : exn) (prs' : presentation).

Definition append_slide (prs : presentation) (sl : slide) : presentation :=
  mkPresentation (slide_width prs) (slide_height prs) (slides prs ++ [sl]).

(** [slide = prs.slides.add_slide(prs.slide_layouts[6])], the drawing calls
    on [slide], then [return slide].  Layout 6 is the blank layout: the new
    slide has no shape. *)
Definition on_new_slide (prs : presentation) (draw : M unit) : outcome :=
  match draw [] with
  | Ok _ sl => Returned sl (append_slide prs sl)
  | Raise e sl => Raised e (append_slide prs sl)
  end.

(** ** The three renderers *)

Section Renderers.

(** The file system the script runs against. *)
Variable fs : filesystem.

Definition add_title_slide (prs : presentation) (title subtitle : string)
    (tagline : option string) : outcome :=
  on_new_slide prs (
    bg <- add_shape RECTANGLE 0 0 (Inches 13.333) (Inches 7.5) ;;
    fill_solid bg ;;
    fill_fore_color_rgb bg NAVY ;;
    line_fill_background bg ;;
    accent <- add_shape RECTANGLE 0 0 (Inches 13.333) (Inches 0.15) ;;
    fill_solid accent ;;
    fill_fore_color_rgb accent GOLD ;;
    line_fill_background accent ;;
    (* Add logo *)
    try_except_pass
      (add_picture fs LOGO_PATH (Inches 10.5) (Inches 0.4) (Inches 0.8)) ;;
    title_box <- add_textbox (Inches 0.8) (Inches 2.2) (Inches 11.733) (Inches 1.8) ;;
    tf <- get_text_frame title_box ;;
    set_word_wrap tf true ;;
    p <- paragraphs_0 tf ;;
    set_text p title ;;
    set_font_size p (Pt 54) ;;
    set_font_bold p true ;;
    set_font_color_rgb p WHITE ;;
    set_alignment p LEFT ;;
    sub_box <- add_textbox (Inches 0.8) (Inches 4.0) (Inches 11.733) (Inches 0.8) ;;
    tf <- get_text_frame sub_box ;;
    p <- paragraphs_0 tf ;;
    set_text p subtitle ;;
    set_font_size p (Pt 22) ;;
    set_font_color_rgb p GOLD ;;
    set_alignment p LEFT ;;
    bottom <- add_shape RECTANGLE 0 (Inches 6.8) (Inches 13.333) (Inches 0.7) ;;
    fill_solid bottom ;;
    fill_fore_color_rgb bottom ROYAL_BLUE ;;
    line_fill_background bottom ;;
    if_truthy tagline (fun tagline =>
      tag_box <- add_textbox (Inches 0.8) (Inches 6.9) (Inches 11.733) (Inches 0.5) ;;
      tf <- get_text_frame tag_box ;;
      p <- paragraphs_0 tf ;;
      set_text p tagline ;;
      set_font_size p (Pt 16) ;;
      set_font_color_rgb p WHITE ;;
      set_alignment p LEFT)).

(** The body of the two item loops of [add_two_column_slide]; they differ
    in the text colour only. *)
Definition column_item (tf : shape_ref) (color : RGBColor) (i : Z)
    (item : string) : M unit :=
  p <- (if i =? 0 then paragraphs_0 tf else add_paragraph tf) ;;
  set_text p item ;;
  set_font_size p (Pt 14) ;;
  set_font_color_rgb p color ;;
  set_space_before p (if i >? 0 then Pt 10 else Pt 0).

Definition add_two_column_slide (prs : presentation) (title : string)
    (left_title : string) (left_items : list string)
    (right_title : string) (right_items : list string) : outcome :=
  on_new_slide prs (
    header_band <- add_shape RECTANGLE 0 0 (Inches 13.333) (Inches 1.5) ;;
    fill_solid header_band ;;
    fill_fore_color_rgb header_band NAVY ;;
    line_fill_background header_band ;;
    gold_line <- add_shape RECTANGLE 0 (Inches 1.5) (Inches 13.333) (Inches 0.06) ;;
    fill_solid gold_line ;;
    fill_fore_color_rgb gold_line GOLD ;;
    line_fill_background gold_line ;;
    (* Add logo *)
    try_except_pass
      (add_picture fs LOGO_PATH (Inches 11.5) (Inches 0.35) (Inches 0.7)) ;;
    title_box <- add_textbox (Inches 0.6) (Inches 0.4) (Inches 10.5) (Inches 0.9) ;;
    tf <- get_text_frame title_box ;;
    p <- paragraphs_0 tf ;;
    set_text p title ;;
    set_font_size p (Pt 30) ;;
    set_font_bold p true ;;
    set_font_color_rgb p WHITE ;;
    set_alignment p LEFT ;;
    left_box <- add_shape ROUNDED_RECTANGLE (Inches 0.5) (Inches 1.9) (Inches 5.9) (Inches 5.0) ;;
    fill_solid left_box ;;
    fill_fore_color_rgb left_box LIGHT_GRAY ;;
    line_color_rgb left_box (RGB 200 200 200) ;;
    left_header <- add_textbox (Inches 0.7) (Inches 2.1) (Inches 5.5) (Inches 0.5) ;;
    tf <- get_text_frame left_header ;;
    p <- paragraphs_0 tf ;;
    set_text p left_title ;;
    set_font_size p (Pt 20) ;;
    set_font_bold p true ;;
    set_font_color_rgb p NAVY ;;
    left_content <- add_textbox (Inches 0.7) (Inches 2.7) (Inches 5.5) (Inches 4.0) ;;
    tf <- get_text_frame left_content ;;
    set_word_wrap tf true ;;
    for_enumerate left_items (column_item tf CHARCOAL) ;;
    right_box <- add_shape ROUNDED_RECTANGLE (Inches 6.9) (Inches 1.9) (Inches 5.9) (Inches 5.0) ;;
    fill_solid right_box ;;
    fill_fore_color_rgb right_box NAVY ;;
    line_fill_background right_box ;;
    right_header <- add_textbox (Inches 7.1) (Inches 2.1) (Inches 5.5) (Inches 0.5) ;;
    tf <- get_text_frame right_header ;;
    p <- paragraphs_0 tf ;;
    set_text p right_title ;;
    set_font_size p (Pt 20) ;;
    set_font_bold p true ;;
    set_font_color_rgb p GOLD ;;
    right_content <- add_textbox (Inches 7.1) (Inches 2.7) (Inches 5.5) (Inches 4.0) ;;
    tf <- get_text_frame right_content ;;
    set_word_wrap tf true ;;
    for_enumerate right_items (column_item tf WHITE)).

(** A section of the sectioned slide: the dict with keys ['header'] and
    ['items']. *)
Record section : Type := mkSection {
  header : string;
  items : list string
}.

Definition section_width : float := 3.9.
Definition section_gap : float := 0.3.
Definition start_x : float := 0.5.

(** [x_pos = start_x + i * (section_width + section_gap)] *)
Definition x_pos (i : Z) : float :=
  (start_x + float_of_int i * (section_width + section_gap))%float.

(** The body of the inner loop over [section['items']]. *)
Definition section_item (tf : shape_ref) (j : Z) (item : string) : M unit :=
  p <- (if j =? 0 then paragraphs_0 tf else add_paragraph tf) ;;
  set_text p ("» " ++ item)%string ;;
  set_font_size p (Pt 12) ;;
  set_font_color_rgb p CHARCOAL ;;
  set_space_before p (if j >? 0 then Pt 8 else Pt 0).

(** The body of the loop over [sections]. *)
Definition section_card (i : Z) (section : section) : M unit :=
  let x_pos := x_pos i in
  box <- add_shape ROUNDED_RECTANGLE (Inches x_pos) (Inches 1.85)
           (Inches section_width) (Inches 5.3) ;;
  fill_solid box ;;
  fill_fore_color_rgb box LIGHT_GRAY ;;
  line_color_rgb box (RGB 200 200 200) ;;
  circle <- add_shape OVAL (Inches (x_pos + 0.15)) (Inches 2.0)
              (Inches 0.45) (Inches 0.45) ;;
  fill_solid circle ;;
  fill_fore_color_rgb circle ROYAL_BLUE ;;
  line_fill_background circle ;;
  num_box <- add_textbox (Inches (x_pos + 0.15)) (Inches 2.05)
               (Inches 0.45) (Inches 0.4) ;;
  tf <- get_text_frame num_box ;;
  p <- paragraphs_0 tf ;;
  set_text p (str (i + 1)) ;;
  set_font_size p (Pt 18) ;;
  set_font_bold p true ;;
  set_font_color_rgb p WHITE ;;
  set_alignment p CENTER ;;
  header_box <- add_textbox (Inches (x_pos + 0.7)) (Inches 2.0)
                  (Inches (section_width - 0.9)) (Inches 0.6) ;;
  tf <- get_text_frame header_box ;;
  set_word_wrap tf true ;;
  p <- paragraphs_0 tf ;;
  set_text p (header section) ;;
  set_font_size p (Pt 15) ;;
  set_font_bold p true ;;
  set_font_color_rgb p NAVY ;;
  items_box <- add_textbox (Inches (x_pos + 0.2)) (Inches 2.65)
                 (Inches (section_width - 0.4)) (Inches 4.3) ;;
  tf <- get_text_frame items_box ;;
  set_word_wrap tf true ;;
  for_enumerate (items section) (section_item tf).

Definition add_content_slide_with_sections (prs : presentation)
    (title : string) (sections : list section)
    (personalized_for : option string) : outcome :=
  on_new_slide prs (
    header_band <- add_shape RECTANGLE 0 0 (Inches 13.333) (Inches 1.5) ;;
    fill_solid header_band ;;
    fill_fore_color_rgb header_band NAVY ;;
    line_fill_background header_band ;;
    gold_line <- add_shape RECTANGLE 0 (Inches 1.5) (Inches 13.333) (Inches 0.06) ;;
    fill_solid gold_line ;;
    fill_fore_color_rgb gold_line GOLD ;;
    line_fill_background gold_line ;;
    (* Add logo *)
    try_except_pass
      (add_picture fs LOGO_PATH (Inches 11.5) (Inches 0.35) (Inches 0.7)) ;;
    (* Add personalization text if provided *)
    if_truthy personalized_for (fun personalized_for =>
      pers_box <- add_textbox (Inches 0.6) (Inches 1.1) (Inches_int 10) (Inches 0.3) ;;
      tf <- get_text_frame pers_box ;;
      p <- paragraphs_0 tf ;;
      set_text p personalized_for ;;
      set_font_size p (Pt 12) ;;
      set_font_italic p true ;;
      set_font_color_rgb p GOLD ;;
      set_alignment p LEFT) ;;
    title_box <- add_textbox (Inches 0.6) (Inches 0.4) (Inches 10.5) (Inches 0.9) ;;
    tf <- get_text_frame title_box ;;
    p <- paragraphs_0 tf ;;
    set_text p title ;;
    set_font_size p (Pt 30) ;;
    set_font_bold p true ;;
    set_font_color_rgb p WHITE ;;
    set_alignment p LEFT ;;
    for_enumerate sections section_card).

End Renderers.

(** ** The script: the four slides of the deck *)

Definition newline : string := String (ascii_of_nat 10) EmptyString.

(** [prs = Presentation()] with the two assignments that follow it. *)
Definition prs0 : presentation :=
  mkPresentation (Inches 13.333) (Inches 7.5) [].

Definition deck_title : string :=
  ("Accelerating Growth" ++ newline ++ "in the AI Era")%string.

Definition market_dynamics : list string :=
  ["» $2T+ in systematic AUM globally—quant now mainstream";
   "» Shift from 'big data' to 'smart data' with demonstrable alpha";
   "» ESG integration table stakes, but quality data scarce";
   "» Risk Parity gaining traction: 60/40 portfolios carry 93% equity risk";
   "» AI reshaping both investment process AND distribution expectations"].

Definition differentiators : list string :=
  ["» Proprietary data creation: biotech FDA models, NLP sentiment, Chinese social scraping";
   "» 'Discovery & Dollars' philosophy—human-machine synthesis";
   "» Integrated research + portfolio management teams";
   "» Risk Parity leadership: 0.87 vs 0.67 Sharpe (vs 60/40)";
   "» ESG innovation: greenwashing detection via NLP, materiality focus"].

Definition distribution_sections : list section :=
  [mkSection "Predictive Lead Scoring"
     ["ML models on CRM data: score by conversion probability & AUM potential";
      "External signals: job changes, RFP activity, regulatory filings, conference attendance";
      "Real-time alerts on buying intent: website visits, content downloads";
      "Prioritize sales time on highest-value opportunities"];
   mkSection "Hyper-Personalized Outreach"
     ["AI-drafted communications tailored to portfolio gaps & interests";
      "Dynamic content: Risk Parity to consultants, ESG to pensions";
      "Adaptive nurture sequences based on engagement patterns";
      "Scale personalization without scaling headcount"];
   mkSection "Intelligent Meeting Prep"
     ["AI briefing docs: holdings, recent allocations, stated concerns";
      "Competitive positioning summaries before every pitch";
      "Conversation guides highlighting relevant Panagora strengths";
      "Post-meeting auto-generated follow-up recommendations"]].

Definition buzz_sections : list section :=
  [mkSection "AI-Powered Content Engine"
     ["Research → white papers → podcasts → social threads → video clips";
      "Real-time market commentary: AI draft + human polish = speed + quality";
      "Interactive 'Risk Parity Portfolio Builder' for prospects";
      "'Smart Data, Smart Alpha' thought leadership series"];
   mkSection "Strategic Amplification"
     ["LinkedIn optimization: timing, hashtags, engagement triggers";
      "Earned media: pitch 'Why 60/40 is dead' angles to financial press";
      "Podcast circuit: CIO shows with Eric's 'pilot + quant' narrative";
      "Update & amplify Institutional Investor Risk Parity research"];
   mkSection "Community & Events"
     ["Virtual 'Quant Masterclass' series—exclusive, invite-only";
      "AI-powered post-event follow-up within 24 hours";
      "Target ICP: diversification seekers, pension CIOs";
      "Build long-term relationships, not just transactions"]].

(** Sequencing of renderer calls at the top level of the script: an
    exception that escapes one call ends the run. *)
Definition and_then (o : outcome) (k : presentation -> outcome) : outcome :=
  match o with
  | Returned _ prs' => k prs'
  | Raised e prs' => Raised e prs'
  end.

(** The four calls of the script, up to [prs.save]. *)
Definition script (fs : filesystem) : outcome :=
  and_then
    (add_title_slide fs prs0 deck_title
       "Distribution Strategy | Investor Engagement | AUM Expansion"
       (Some "Panagora Asset Management  |  Strategic Discussion  |  December 2024"))
    (fun prs =>
  and_then
    (add_two_column_slide fs prs
       "The Quantitative Investing Landscape & Panagora's Edge"
       "MARKET DYNAMICS" market_dynamics
       "PANAGORA DIFFERENTIATORS" differentiators)
    (fun prs =>
  and_then
    (add_content_slide_with_sections fs prs
       "AI-Era Distribution: Intelligent Lead Management & Engagement"
       distribution_sections
       (Some "Created for Discussion with Tim Stanton"))
    (fun prs =>
  add_content_slide_with_sections fs prs
    "Generating Buzz: Thought Leadership & Publicity for Modern Investors"
    buzz_sections None))).

(** The presentation a run leaves, whether it returned or raised. *)
Definition presentation_of (o : outcome) : presentation :=
  match o with
  | Returned _ prs' => prs'
  | Raised _ prs' => prs'
  end.

(** ** Observations on slides *)

Definition rendered (o : outcome) : option slide :=
  match o with
  | Returned sl _ => Some sl
  | Raised _ _ => None
  end.

Definition is_panel (sh : shape) : bool :=
  match kind sh with AutoShape ROUNDED_RECTANGLE => true | _ => false end.

Definition is_oval (sh : shape) : bool :=
  match kind sh with AutoShape OVAL => true | _ => false end.

Definition is_textbox (sh : shape) : bool :=
  match kind sh with TextBox => true | _ => false end.

Definition is_picture (sh : shape) : bool :=
  match kind sh with Picture _ => true | _ => false end.

Definition count (f : shape -> bool) (sl : slide) : nat :=
  List.length (filter f sl).

(** The slide with its pictures taken away. *)
Definition without_pictures (sl : slide) : slide :=
  filter (fun sh => negb (is_picture sh)) sl.

(** The texts of a shape's paragraphs, in order. *)
Definition texts (sh : shape) : list string :=
  map text (paragraphs (text_frame sh)).



(** The cards (or panels) on a slide: each rounded rectangle opens one,
    which holds the shapes painted after it up to the next rounded
    rectangle.  Shapes painted before the first card belong to none. *)
Fixpoint split_cards (cur : option (list shape)) (sl : slide)
    : list (list shape) :=
  match sl with
  | [] => match cur with Some g => [g] | None => [] end
  | sh :: rest =>
      if is_panel sh
      then match cur with Some g => [g] | None => [] end
           ++ split_cards (Some [sh]) rest
      else split_cards (option_map (fun g => g ++ [sh]) cur) rest
  end.

Definition cards_on (sl : slide) : list (list shape) := split_cards None sl.

(** The x-offsets of the cards on a slide, in paint order: the left edge
    of each card's rounded rectangle. *)
Definition card_offsets (sl : slide) : list Z :=
  flat_map (fun card => match card with
                        | panel :: _ => [left panel]
                        | [] => []
                        end)
           (cards_on sl).


(** The number shown on a card's badge: the text of the text box painted
    right after the card's oval, at the oval's left edge. *)
Definition badge_number (card : list shape) : option (list string) :=
  match card with
  | _ :: circle :: num_box :: _ =>
      if is_oval circle && is_textbox num_box
         && (left num_box =? left circle)
      then Some (texts num_box) else None
  | _ => None
  end.

(** A shape lies on the canvas of a presentation. *)
Definition in_canvas (prs : presentation) (sh : shape) : bool :=
  (0 <=? left sh) && (0 <=? top sh)
  && (left sh + width sh <=? slide_width prs)
  && (top sh + height sh <=? slide_height prs).

(** The top left corner of a shape lies on the canvas and its bottom edge
    does not pass the canvas's. *)
Definition anchored_in_canvas (prs : presentation) (sh : shape) : bool :=
  (0 <=? left sh) && (0 <=? top sh)
  && (top sh + height sh <=? slide_height prs).


(** The paragraphs of the items text box of a section or column, as the
    item loops leave them. *)
Definition items_paragraphs_of (its : list string) (box : shape) : Prop :=
  kind box = TextBox
  /\ List.length (paragraphs (text_frame box))
     = Nat.max 1 (List.length its)
  /\ match its with
     | [] => paragraphs (text_frame box) = [empty_paragraph]
     | _ :: _ => List.length (texts box) = List.length its
     end.

(** ** The layout of each slide, written out

    The renderers above are sequences of drawing calls; these definitions
    give the slide each one ends with.  The two are proved equal below. *)

(** Item loops: the paragraphs after item [j] is written with [style]. *)
Definition item_step (style : Z -> string -> paragraph -> paragraph)
    (j : Z) (item : string) (ps : list paragraph) : list paragraph :=
  if j =? 0 then update_nth 0 (style j item) ps
  else ps ++ [style j item empty_paragraph].

Fixpoint item_paragraphs (style : Z -> string -> paragraph -> paragraph)
    (j : Z) (its : list string) (ps : list paragraph) : list paragraph :=
  match its with
  | [] => ps
  | item :: its' => item_paragraphs style (j + 1) its' (item_step style j item ps)
  end.

Definition column_style (color : RGBColor) (i : Z) (item : string)
    (p : paragraph) : paragraph :=
  with_space_before (if i >? 0 then Pt 10 else Pt 0)
    (with_font_color color (with_font_size (Pt 14) (with_text item p))).

Definition section_style (j : Z) (item : string) (p : paragraph) : paragraph :=
  with_space_before (if j >? 0 then Pt 8 else Pt 0)
    (with_font_color CHARCOAL
       (with_font_size (Pt 12) (with_text ("» " ++ item)%string p))).

Definition bar (x y w h : Z) (c : RGBColor) : shape :=
  mkShape (AutoShape RECTANGLE) x y w h (Solid (Some c)) NoFill new_text_frame.

Definition text_box (x y w h : Z) (wrap : option bool) (ps : list paragraph)
    : shape :=
  mkShape TextBox x y w h Inherited Inherited (mkTextFrame wrap ps).

Definition logo (fs : filesystem) (x y h : Z) : list shape :=
  match fs LOGO_PATH with
  | inr img => [mkShape (Picture LOGO_PATH) x y (scaled_cx img h) h
                        Inherited Inherited no_text_frame]
  | inl _ => []
  end.

Definition title_slide_layout (fs : filesystem) (title subtitle : string)
    (tagline : option string) : slide :=
  [bar 0 0 (Inches 13.333) (Inches 7.5) NAVY;
   bar 0 0 (Inches 13.333) (Inches 0.15) GOLD]
  ++ logo fs (Inches 10.5) (Inches 0.4) (Inches 0.8)
  ++ [text_box (Inches 0.8) (Inches 2.2) (Inches 11.733) (Inches 1.8) (Some true)
        [mkParagraph title (Some (Pt 54)) (Some true) None (Some WHITE)
                     (Some LEFT) None];
      text_box (Inches 0.8) (Inches 4.0) (Inches 11.733) (Inches 0.8) None
        [mkParagraph subtitle (Some (Pt 22)) None None (Some GOLD)
                     (Some LEFT) None];
      bar 0 (Inches 6.8) (Inches 13.333) (Inches 0.7) ROYAL_BLUE]
  ++ match tagline with
     | Some t =>
         if truthy tagline
         then [text_box (Inches 0.8) (Inches 6.9) (Inches 11.733) (Inches 0.5) None
                 [mkParagraph t (Some (Pt 16)) None None (Some WHITE)
                              (Some LEFT) None]]
         else []
     | None => []
     end.

Definition header_layout (fs : filesystem) : slide :=
  [bar 0 0 (Inches 13.333) (Inches 1.5) NAVY;
   bar 0 (Inches 1.5) (Inches 13.333) (Inches 0.06) GOLD]
  ++ logo fs (Inches 11.5) (Inches 0.35) (Inches 0.7).

Definition title_box_layout (title : string) : shape :=
  text_box (Inches 0.6) (Inches 0.4) (Inches 10.5) (Inches 0.9) None
    [mkParagraph title (Some (Pt 30)) (Some true) None (Some WHITE)
                 (Some LEFT) None].

Definition column_layout (x_box x_text : float) (fill_c : RGBColor)
    (outline : FillFormat) (head_c text_c : RGBColor) (head : string)
    (its : list string) : list shape :=
  [mkShape (AutoShape ROUNDED_RECTANGLE) (Inches x_box) (Inches 1.9)
           (Inches 5.9) (Inches 5.0) (Solid (Some fill_c)) outline
           new_text_frame;
   text_box (Inches x_text) (Inches 2.1) (Inches 5.5) (Inches 0.5) None
     [mkParagraph head (Some (Pt 20)) (Some true) None (Some head_c) None None];
   text_box (Inches x_text) (Inches 2.7) (Inches 5.5) (Inches 4.0) (Some true)
     (item_paragraphs (column_style text_c) 0 its [empty_paragraph])].

Definition two_column_layout (fs : filesystem) (title : string)
    (left_title : string) (left_items : list string)
    (right_title : string) (right_items : list string) : slide :=
  header_layout fs ++ [title_box_layout title]
  ++ column_layout 0.5 0.7 LIGHT_GRAY (Solid (Some (RGB 200 200 200)))
       NAVY CHARCOAL left_title left_items
  ++ column_layout 6.9 7.1 NAVY NoFill GOLD WHITE right_title right_items.

Definition card_layout (i : Z) (sec : section) : list shape :=
  [mkShape (AutoShape ROUNDED_RECTANGLE) (Inches (x_pos i)) (Inches 1.85)
           (Inches section_width) (Inches 5.3) (Solid (Some LIGHT_GRAY))
           (Solid (Some (RGB 200 200 200))) new_text_frame;
   mkShape (AutoShape OVAL) (Inches (x_pos i + 0.15)) (Inches 2.0)
           (Inches 0.45) (Inches 0.45) (Solid (Some ROYAL_BLUE)) NoFill
           new_text_frame;
   text_box (Inches (x_pos i + 0.15)) (Inches 2.05) (Inches 0.45) (Inches 0.4)
     None
     [mkParagraph (str (i + 1)) (Some (Pt 18)) (Some true) None (Some WHITE)
                  (Some CENTER) None];
   text_box (Inches (x_pos i + 0.7)) (Inches 2.0)
     (Inches (section_width - 0.9)) (Inches 0.6) (Some true)
     [mkParagraph (header sec) (Some (Pt 15)) (Some true) None (Some NAVY)
                  None None];
   text_box (Inches (x_pos i + 0.2)) (Inches 2.65)
     (Inches (section_width - 0.4)) (Inches 4.3) (Some true)
     (item_paragraphs section_style 0 (items sec) [empty_paragraph])].

Fixpoint cards_layout (i : Z) (sections : list section) : list (list shape) :=
  match sections with
  | [] => []
  | sec :: rest => card_layout i sec :: cards_layout (i + 1) rest
  end.

Definition sectioned_layout (fs : filesystem) (title : string)
    (sections : list section) (personalized_for : option string) : slide :=
  header_layout fs
  ++ match personalized_for with
     | Some t =>
         if truthy personalized_for
         then [text_box (Inches 0.6) (Inches 1.1) (Inches_int 10) (Inches 0.3) None
                 [mkParagraph t (Some (Pt 12)) None (Some true) (Some GOLD)
                              (Some LEFT) None]]
         else []
     | None => []
     end
  ++ [title_box_layout title]
  ++ List.concat (cards_layout 0 sections).

(** The card offsets checked one by one: [spacing_holds n] tells whether
    every card index [i] below [n] has its left edge at
    [Inches(start_x) + i * Inches(section_width + section_gap)] EMU. *)
Definition evenly_spaced_at (a d i : Z) : bool :=
  Inches (x_pos i) =? a + i * d.

Definition spacing_holds (n : N) : bool :=
  let a := Inches start_x in
  let d := Inches (section_width + section_gap) in
  snd (N.iter n (fun st => (fst st + 1, snd st && evenly_spaced_at a d (fst st)))
                (0, true)).

(** The paragraphs written for the items from index [j] on, each on a
    fresh paragraph. *)
Fixpoint styled_from (style : Z -> string -> paragraph -> paragraph)
    (j : Z) (its : list string) : list paragraph :=
  match its with
  | [] => []
  | item :: its' => style j item empty_paragraph :: styled_from style (j + 1) its'
  end.

(** ** Two file systems *)

(** No file can be opened: the logo is missing. *)
Definition no_logo : filesystem := fun path => inl (FileNotFoundError path).

(** The logo file holds a banner five times as wide as it is high. *)
Definition banner_logo : filesystem := fun _ => inr (mkImage (fun h => 5 * h)).

(** ** Further observations: boxes, gaps and written paragraphs *)

(** The box of [inner] lies within the box of [outer]. *)
Definition inside (inner outer : shape) : bool :=
  (left outer <=? left inner) && (top outer <=? top inner)
  && (left inner + width inner <=? left outer + width outer)
  && (top inner + height inner <=? top outer + height outer).

(** The boxes of two shapes share some area. *)
Definition overlap (a b : shape) : bool :=
  (left a <? left b + width b) && (left b <? left a + width a)
  && (top a <? top b + height b) && (top b <? top a + height a).

(** Every shape of a card lies within the card's rounded rectangle. *)
Definition card_parts_inside (card : list shape) : bool :=
  match card with
  | panel :: parts => forallb (fun part => inside part panel) parts
  | [] => true
  end.

(** The horizontal gaps between adjacent cards: from the right edge of one
    card's rounded rectangle to the left edge of the next. *)
Fixpoint gaps (cards : list (list shape)) : list Z :=
  match cards with
  | card :: rest =>
      match card, rest with
      | panel :: _, (next :: _) :: _ =>
          (left next - (left panel + width panel)) :: gaps rest
      | _, _ => gaps rest
      end
  | [] => []
  end.

(** [holds_below test n] tells whether [test] holds of every index from 0
    up to [n], [n] excluded. *)
Definition holds_below (test : Z -> bool) (n : N) : bool :=
  snd (N.iter n (fun st => (fst st + 1, snd st && test (fst st))) (0, true)).

(** A section without header and items: the geometry of a card does not
    depend on the section it is drawn for. *)
Definition blank_section : section := mkSection "" [].

(** An item paragraph as the loops format it. *)
Definition item_paragraph (size : Z) (color : RGBColor) (space : Z)
    (t : string) : paragraph :=
  mkParagraph t (Some size) None None (Some color) None (Some space).

(** The paragraphs of an items text box in closed form: the one empty
    paragraph for no item; otherwise one paragraph per item, showing
    [label item], the first with no space before it and every later one
    with [space]. *)
Definition written_items (size : Z) (color : RGBColor) (space : Z)
    (label : string -> string) (its : list string) : list paragraph :=
  match its with
  | [] => [empty_paragraph]
  | first :: rest =>
      item_paragraph size color (Pt 0) (label first)
      :: map (fun item => item_paragraph size color space (label item)) rest
  end.

(** The number of pictures the logo load leaves on a slide. *)
Definition logo_count (fs : filesystem) : nat :=
  match fs LOGO_PATH with
  | inr _ => 1
  | inl _ => 0
  end.

(** The kind and the box of a shape: all of it but its colours and its
    text. *)
Definition geometry (sh : shape) : shape_kind * (Z * Z * Z * Z) :=
  (kind sh, (left sh, top sh, width sh, height sh)).

(** * Proofs *)

(** ** Updating a list in place *)

Section UpdateNth.

Context {A : Type}.
Implicit Types (f g : A -> A) (l base : list A) (n : nat).

Lemma update_nth_last f base x :
  update_nth (List.length base) f (base ++ [x]) = base ++ [f x].
Proof.
  induction base as [|y base IH]; simpl; [reflexivity|].
  now rewrite IH.
Qed.

Lemma nth_error_last base x :
  nth_error (base ++ [x]) (List.length base) = Some x.
Proof.
  induction base as [|y base IH]; simpl; [reflexivity | exact IH].
Qed.

Lemma update_nth_twice f g n l :
  update_nth n g (update_nth n f l) = update_nth n (fun x => g (f x)) l.
Proof.
  revert n; induction l as [|y l IH]; intros [|n]; simpl; try reflexivity.
  now rewrite IH.
Qed.

Lemma update_nth_at f g n l x :
  nth_error l n = Some x -> f x = g x -> update_nth n f l = update_nth n g l.
Proof.
  revert n; induction l as [|y l IH]; intros [|n]; simpl; try discriminate.
  - intros [= ->] ->. reflexivity.
  - intros Hn Hfg. now rewrite (IH _ Hn Hfg).
Qed.

Lemma update_nth_ext f g n l :
  (forall x, f x = g x) -> update_nth n f l = update_nth n g l.
Proof.
  intros Hfg. revert n; induction l as [|y l IH]; intros [|n]; simpl;
    try reflexivity.
  - now rewrite Hfg.
  - now rewrite IH.
Qed.

Lemma update_nth_same f n l :
  (forall x, f x = x) -> update_nth n f l = l.
Proof.
  intros Hf. revert n; induction l as [|y l IH]; intros [|n]; simpl;
    try reflexivity.
  - now rewrite Hf.
  - now rewrite IH.
Qed.

Lemma nth_error_update_nth f n l x :
  nth_error l n = Some x -> nth_error (update_nth n f l) n = Some (f x).
Proof.
  revert n; induction l as [|y l IH]; intros [|n]; simpl; try discriminate.
  - now intros [= ->].
  - apply IH.
Qed.

Lemma length_update_nth f n l :
  List.length (update_nth n f l) = List.length l.
Proof.
  revert n; induction l as [|y l IH]; intros [|n]; simpl; try reflexivity.
  now rewrite IH.
Qed.

End UpdateNth.

(** ** Running attribute assignments *)

Lemma with_paragraphs_twice (f g : list paragraph -> list paragraph) sh :
  with_text_frame (with_paragraphs g) (with_text_frame (with_paragraphs f) sh)
  = with_text_frame (with_paragraphs (fun ps => g (f ps))) sh.
Proof. reflexivity. Qed.

(** An assignment through a paragraph handle, followed by more calls. *)
Lemma modify_paragraph_bind {A} p f (k : M A) s :
  (modify_paragraph p f ;; k) s
  = k (update_nth (fst p)
         (with_text_frame (with_paragraphs (update_nth (snd p) f))) s).
Proof. reflexivity. Qed.

(** Four assignments through the same paragraph handle amount to one. *)
Lemma modify_paragraph_four p f1 f2 f3 f4 s :
  (modify_paragraph p f1 ;; modify_paragraph p f2 ;;
   modify_paragraph p f3 ;; modify_paragraph p f4) s
  = modify_paragraph p (fun x => f4 (f3 (f2 (f1 x)))) s.
Proof.
  rewrite !modify_paragraph_bind.
  unfold modify_paragraph, modify_shape. f_equal.
  rewrite !update_nth_twice. apply update_nth_ext. intros sh.
  rewrite !with_paragraphs_twice. unfold with_text_frame, with_paragraphs.
  do 2 f_equal. now rewrite !update_nth_twice.
Qed.

(** *** Drawing calls on the shape added last

    A handle is used only until the next shape is added, so every
    assignment finds its shape at the end of the slide. *)

Section LastShape.

Variables (base : slide) (x : shape).

Lemma add_shape_run t a b w h (s : slide) :
  add_shape t a b w h s
  = Ok (List.length s) (s ++ [new_shape (AutoShape t) a b w h]).
Proof. reflexivity. Qed.

Lemma add_textbox_run a b w h (s : slide) :
  add_textbox a b w h s = Ok (List.length s) (s ++ [new_shape TextBox a b w h]).
Proof. reflexivity. Qed.

Lemma get_text_frame_run sh (s : slide) : get_text_frame sh s = Ok sh s.
Proof. reflexivity. Qed.

Lemma modify_shape_last f :
  modify_shape (List.length base) f (base ++ [x]) = Ok tt (base ++ [f x]).
Proof. unfold modify_shape. now rewrite update_nth_last. Qed.

Lemma fill_fore_color_rgb_last c o :
  fill x = Solid o ->
  fill_fore_color_rgb (List.length base) c (base ++ [x])
  = Ok tt (base ++ [with_fill (Solid (Some c)) x]).
Proof.
  intros Hx. unfold fill_fore_color_rgb.
  now rewrite nth_error_last, Hx, update_nth_last.
Qed.

Lemma paragraphs_0_last p ps :
  paragraphs (text_frame x) = p :: ps ->
  paragraphs_0 (List.length base) (base ++ [x])
  = Ok (List.length base, 0%nat) (base ++ [x]).
Proof.
  intros Hx. unfold paragraphs_0. now rewrite nth_error_last, Hx.
Qed.

Lemma modify_paragraph_last k f :
  modify_paragraph (List.length base, k) f (base ++ [x])
  = Ok tt (base ++ [with_text_frame (with_paragraphs (update_nth k f)) x]).
Proof. unfold modify_paragraph. apply modify_shape_last. Qed.

End LastShape.

(** The best-effort logo: whatever the load does, the call returns, and
    the slide gains the picture or nothing. *)
Lemma try_logo_run fs a b h (s : slide) :
  try_except_pass (add_picture fs LOGO_PATH a b h) s = Ok tt (s ++ logo fs a b h).
Proof.
  unfold try_except_pass, add_picture, logo.
  destruct (fs LOGO_PATH); [now rewrite app_nil_r | reflexivity].
Qed.

Ltac unfold_calls :=
  unfold fill_solid, line_fill_background, line_color_rgb, set_word_wrap,
    set_text, set_font_size, set_font_bold, set_font_italic,
    set_font_color_rgb, set_alignment, set_space_before.

(** One drawing call on the current slide. *)
Ltac draw_call :=
  first
    [ rewrite add_shape_run
    | rewrite add_textbox_run
    | rewrite get_text_frame_run
    | rewrite try_logo_run
    | rewrite modify_shape_last
    | rewrite modify_paragraph_last
    | rewrite fill_fore_color_rgb_last with (o := None) by reflexivity
    | erewrite paragraphs_0_last by reflexivity ].

(** A sequence of drawing calls, run from the current slide on. *)
Ltac draw :=
  unfold_calls; unfold bind, ret; cbv beta iota;
  repeat (draw_call; cbv beta iota).

(** ** The item loops *)

Section ItemLoop.

Variable style : Z -> string -> paragraph -> paragraph.
Variable body : shape_ref -> Z -> string -> M unit.

Hypothesis body_run : forall tf j item s,
  body tf j item s
  = (p <- (if j =? 0 then paragraphs_0 tf else add_paragraph tf) ;;
     modify_paragraph p (style j item)) s.

Lemma item_step_nonempty j item ps :
  ps <> [] -> item_step style j item ps <> [].
Proof.
  unfold item_step. destruct (j =? 0), ps as [|p ps]; simpl; congruence.
Qed.

Lemma item_body_run tf j item s x :
  nth_error s tf = Some x ->
  paragraphs (text_frame x) <> [] ->
  body tf j item s
  = Ok tt (update_nth tf
             (with_text_frame (with_paragraphs (item_step style j item))) s).
Proof.
  intros Hx Hne. rewrite body_run. unfold bind.
  destruct (j =? 0) eqn:Hj.
  - unfold paragraphs_0. rewrite Hx.
    destruct (paragraphs (text_frame x)) as [|p0 ps] eqn:Hps; [congruence|].
    unfold modify_paragraph, modify_shape; simpl. f_equal.
    apply update_nth_at with (x := x); [exact Hx|].
    unfold with_text_frame, with_paragraphs, item_step. now rewrite Hj.
  - unfold add_paragraph. rewrite Hx.
    unfold modify_paragraph, modify_shape; simpl. f_equal.
    rewrite update_nth_twice.
    apply update_nth_at with (x := x); [exact Hx|].
    unfold with_text_frame, with_paragraphs, item_step; simpl.
    now rewrite Hj, update_nth_last.
Qed.

Lemma item_loop_run tf its : forall j s x,
  nth_error s tf = Some x ->
  paragraphs (text_frame x) <> [] ->
  for_enumerate_from j its (body tf) s
  = Ok tt (update_nth tf
             (with_text_frame (with_paragraphs (item_paragraphs style j its))) s).
Proof.
  induction its as [|item its IH]; intros j s x Hx Hne; simpl.
  - unfold ret. f_equal. symmetry. apply update_nth_same.
    now intros [? ? ? ? ? ? ? [? ?]].
  - unfold bind. rewrite (item_body_run _ _ _ _ _ Hx Hne).
    erewrite IH.
    + rewrite update_nth_twice. reflexivity.
    + apply nth_error_update_nth, Hx.
    + simpl. now apply item_step_nonempty.
Qed.

(** The loop on the text box added last, which still has the one empty
    paragraph it was created with. *)
Lemma item_loop_last base x its :
  paragraphs (text_frame x) = [empty_paragraph] ->
  for_enumerate its (body (List.length base)) (base ++ [x])
  = Ok tt (base ++ [mkShape (kind x) (left x) (top x) (width x) (height x)
                            (fill x) (line x)
                            (mkTextFrame (word_wrap (text_frame x))
                               (item_paragraphs style 0 its [empty_paragraph]))]).
Proof.
  intros Hx. unfold for_enumerate.
  rewrite item_loop_run with (x := x).
  - rewrite update_nth_last. unfold with_text_frame, with_paragraphs; simpl.
    now rewrite Hx.
  - apply nth_error_last.
  - now rewrite Hx.
Qed.

(** The number of paragraphs the loop leaves. *)
Lemma length_item_paragraphs its : forall j ps,
  j <> 0 ->
  0 <= j ->
  List.length (item_paragraphs style j its ps)
  = (List.length ps + List.length its)%nat.
Proof.
  induction its as [|item its IH]; intros j ps Hj Hpos; simpl.
  - now rewrite Nat.add_0_r.
  - rewrite IH by lia. unfold item_step.
    destruct (Z.eqb_spec j 0) as [|_]; [contradiction|].
    rewrite length_app; simpl. lia.
Qed.

Lemma length_item_paragraphs_0 its p :
  List.length (item_paragraphs style 0 its [p])
  = Nat.max 1 (List.length its).
Proof.
  destruct its as [|item its]; simpl; [reflexivity|].
  rewrite length_item_paragraphs by lia. simpl. lia.
Qed.

End ItemLoop.

Lemma column_item_run color tf j item s :
  column_item tf color j item s
  = (p <- (if j =? 0 then paragraphs_0 tf else add_paragraph tf) ;;
     modify_paragraph p (column_style color j item)) s.
Proof.
  unfold column_item, bind at 1 5.
  destruct ((if j =? 0 then paragraphs_0 tf else add_paragraph tf) s);
    [|reflexivity].
  unfold_calls. apply modify_paragraph_four.
Qed.

Lemma section_item_run tf j item s :
  section_item tf j item s
  = (p <- (if j =? 0 then paragraphs_0 tf else add_paragraph tf) ;;
     modify_paragraph p (section_style j item)) s.
Proof.
  unfold section_item, bind at 1 5.
  destruct ((if j =? 0 then paragraphs_0 tf else add_paragraph tf) s);
    [|reflexivity].
  unfold_calls. apply modify_paragraph_four.
Qed.

Lemma column_loop_last (base : slide) x color its :
  paragraphs (text_frame x) = [empty_paragraph] ->
  for_enumerate its (column_item (List.length base) color) (base ++ [x])
  = Ok tt (base ++ [mkShape (kind x) (left x) (top x) (width x) (height x)
                            (fill x) (line x)
                            (mkTextFrame (word_wrap (text_frame x))
                               (item_paragraphs (column_style color) 0 its
                                  [empty_paragraph]))]).
Proof.
  intros Hx.
  apply (item_loop_last (column_style color)
           (fun tf => column_item tf color)); [|exact Hx].
  intros. apply column_item_run.
Qed.

Lemma section_items_last (base : slide) x its :
  paragraphs (text_frame x) = [empty_paragraph] ->
  for_enumerate its (section_item (List.length base)) (base ++ [x])
  = Ok tt (base ++ [mkShape (kind x) (left x) (top x) (width x) (height x)
                            (fill x) (line x)
                            (mkTextFrame (word_wrap (text_frame x))
                               (item_paragraphs section_style 0 its
                                  [empty_paragraph]))]).
Proof.
  intros Hx. apply (item_loop_last section_style section_item); [|exact Hx].
  exact section_item_run.
Qed.

(** ** Each renderer draws its layout *)

Lemma section_card_run i sec (s : slide) :
  section_card i sec s = Ok tt (s ++ card_layout i sec).
Proof.
  unfold section_card. draw.
  rewrite section_items_last by reflexivity.
  rewrite <- !app_assoc. reflexivity.
Qed.

Lemma section_loop_run sections : forall i (s : slide),
  for_enumerate_from i sections section_card s
  = Ok tt (s ++ List.concat (cards_layout i sections)).
Proof.
  induction sections as [|sec rest IH]; intros i s; simpl.
  - now rewrite app_nil_r.
  - unfold bind. rewrite section_card_run, IH. now rewrite <- app_assoc.
Qed.

Lemma add_title_slide_run fs prs title subtitle tagline :
  add_title_slide fs prs title subtitle tagline
  = Returned (title_slide_layout fs title subtitle tagline)
             (append_slide prs (title_slide_layout fs title subtitle tagline)).
Proof.
  unfold add_title_slide, on_new_slide, title_slide_layout, if_truthy.
  destruct tagline as [t|]; [destruct (truthy (Some t))|]; draw;
    rewrite <- ?app_assoc; reflexivity.
Qed.

Lemma add_two_column_slide_run fs prs title left_title left_items
    right_title right_items :
  add_two_column_slide fs prs title left_title left_items
    right_title right_items
  = Returned (two_column_layout fs title left_title left_items
                right_title right_items)
             (append_slide prs
                (two_column_layout fs title left_title left_items
                   right_title right_items)).
Proof.
  unfold add_two_column_slide, on_new_slide, two_column_layout.
  draw.
  rewrite column_loop_last by reflexivity. cbv beta iota.
  draw.
  rewrite column_loop_last by reflexivity.
  rewrite <- ?app_assoc; reflexivity.
Qed.

Lemma add_content_slide_with_sections_run fs prs title sections
    personalized_for :
  add_content_slide_with_sections fs prs title sections personalized_for
  = Returned (sectioned_layout fs title sections personalized_for)
             (append_slide prs
                (sectioned_layout fs title sections personalized_for)).
Proof.
  unfold add_content_slide_with_sections, on_new_slide, sectioned_layout,
    if_truthy, for_enumerate.
  destruct personalized_for as [t|]; [destruct (truthy (Some t))|]; draw;
    rewrite section_loop_run, <- ?app_assoc; reflexivity.
Qed.

(** ** What the item loops leave, in closed form *)

Section ItemParagraphs.

Variable style : Z -> string -> paragraph -> paragraph.

Lemma item_paragraphs_fresh its : forall j ps,
  0 < j ->
  item_paragraphs style j its ps = ps ++ styled_from style j its.
Proof.
  induction its as [|item its IH]; intros j ps Hj; simpl.
  - now rewrite app_nil_r.
  - rewrite IH by lia. unfold item_step.
    destruct (Z.eqb_spec j 0) as [->|_]; [lia|].
    now rewrite <- app_assoc.
Qed.

(** The first item takes the paragraph the text box was created with; with
    no item at all that paragraph stays as it was. *)
Lemma item_paragraphs_0 its :
  item_paragraphs style 0 its [empty_paragraph]
  = match its with
    | [] => [empty_paragraph]
    | _ :: _ => styled_from style 0 its
    end.
Proof.
  destruct its as [|item its]; simpl; [reflexivity|].
  now rewrite item_paragraphs_fresh by lia.
Qed.

Lemma length_styled_from its : forall j,
  List.length (styled_from style j its) = List.length its.
Proof. induction its as [|item its IH]; intros j; simpl; congruence. Qed.



End ItemParagraphs.



(** ** The cards on a slide *)

Lemma split_cards_skip pre rest :
  forallb (fun sh => negb (is_panel sh)) pre = true ->
  split_cards None (pre ++ rest) = split_cards None rest.
Proof.
  induction pre as [|sh pre IH]; simpl; [reflexivity|].
  intros [Hsh Hpre]%andb_prop.
  destruct (is_panel sh); [discriminate | now apply IH].
Qed.

Lemma split_cards_open g sections i :
  split_cards (Some g) (List.concat (cards_layout i sections))
  = g :: split_cards None (List.concat (cards_layout i sections)).
Proof. destruct sections; reflexivity. Qed.

Lemma cards_on_cards sections : forall i,
  split_cards None (List.concat (cards_layout i sections))
  = cards_layout i sections.
Proof.
  induction sections as [|sec rest IH]; intros i; [reflexivity|].
  cbn [cards_layout List.concat]. unfold card_layout at 1.
  cbn [app split_cards is_panel kind text_box option_map].
  now rewrite split_cards_open, IH.
Qed.

Lemma header_layout_no_panel fs :
  forallb (fun sh => negb (is_panel sh)) (header_layout fs) = true.
Proof. unfold header_layout, logo. now destruct (fs LOGO_PATH). Qed.

Lemma cards_on_sectioned fs title sections personalized_for :
  cards_on (sectioned_layout fs title sections personalized_for)
  = cards_layout 0 sections.
Proof.
  unfold cards_on, sectioned_layout.
  rewrite !app_assoc, <- (app_assoc (header_layout fs)).
  rewrite split_cards_skip; [apply cards_on_cards|].
  rewrite forallb_app, header_layout_no_panel.
  destruct personalized_for as [t|]; [destruct (truthy (Some t))|];
    reflexivity.
Qed.

Lemma cards_on_two_column fs title left_title left_items right_title
    right_items :
  cards_on (two_column_layout fs title left_title left_items right_title
              right_items)
  = [column_layout 0.5 0.7 LIGHT_GRAY (Solid (Some (RGB 200 200 200)))
       NAVY CHARCOAL left_title left_items;
     column_layout 6.9 7.1 NAVY NoFill GOLD WHITE right_title right_items].
Proof.
  unfold cards_on, two_column_layout.
  rewrite (app_assoc (header_layout fs)).
  rewrite split_cards_skip; [reflexivity|].
  now rewrite forallb_app, header_layout_no_panel.
Qed.

(** ** Counting shapes *)

Lemma count_app f (a b : slide) : count f (a ++ b) = (count f a + count f b)%nat.
Proof. unfold count. now rewrite filter_app, length_app. Qed.

Lemma count_cards f k sections :
  (forall i sec, count f (card_layout i sec) = k) ->
  forall i,
    count f (List.concat (cards_layout i sections))
    = (k * List.length sections)%nat.
Proof.
  intros Hk. induction sections as [|sec rest IH]; intros i.
  - simpl. now rewrite Nat.mul_0_r.
  - cbn [cards_layout List.concat List.length].
    rewrite count_app, Hk, IH. lia.
Qed.





Lemma count_sectioned_textboxes fs title sections personalized_for :
  count is_textbox (sectioned_layout fs title sections personalized_for)
  = ((if truthy personalized_for then 2 else 1)
     + 3 * List.length sections)%nat.
Proof.
  unfold sectioned_layout, header_layout, logo.
  rewrite !count_app, (count_cards is_textbox 3) by reflexivity.
  destruct (fs LOGO_PATH), personalized_for as [t|];
    try destruct (truthy (Some t)); unfold count; simpl; lia.
Qed.

(** ** The cards of the sectioned slide *)




(** ** Paragraph counts of the items text boxes *)

Lemma items_paragraphs_of_text_box style x y w h wrap its :
  items_paragraphs_of its
    (text_box x y w h wrap (item_paragraphs style 0 its [empty_paragraph])).
Proof.
  unfold items_paragraphs_of, texts; simpl.
  split; [reflexivity|].
  split; [apply length_item_paragraphs_0|].
  destruct its as [|item its]; [reflexivity|].
  rewrite length_map, length_item_paragraphs_0. reflexivity.
Qed.

Lemma cards_layout_items_paragraphs sections : forall i,
  Forall2
    (fun sec card =>
       exists panel circle num_box header_box items_box,
         card = [panel; circle; num_box; header_box; items_box]
         /\ items_paragraphs_of (items sec) items_box)
    sections (cards_layout i sections).
Proof.
  induction sections as [|sec rest IH]; intros i; simpl; constructor.
  - unfold card_layout. do 5 eexists. split; [reflexivity|].
    apply items_paragraphs_of_text_box.
  - apply IH.
Qed.

(** C9.  An items text box is created even for an empty item list and then
    keeps the one empty paragraph it was created with: in both columns of
    the two-column slide and in every card of the sectioned slide, the
    items text box has [max(1, len(items))] paragraphs, and for no item
    these are exactly the one empty default paragraph. *)
Theorem items_box_paragraph_count :
  (forall fs prs title left_title left_items right_title right_items,
      exists sl left_box left_header left_content
             right_box right_header right_content,
        add_two_column_slide fs prs title left_title left_items
          right_title right_items
        = Returned sl (append_slide prs sl)
        /\ cards_on sl = [[left_box; left_header; left_content];
                          [right_box; right_header; right_content]]
        /\ items_paragraphs_of left_items left_content
        /\ items_paragraphs_of right_items right_content)
  /\ (forall fs prs title sections personalized_for,
         exists sl,
           add_content_slide_with_sections fs prs title sections
             personalized_for
           = Returned sl (append_slide prs sl)
           /\ Forall2
                (fun sec card =>
                   exists panel circle num_box header_box items_box,
                     card = [panel; circle; num_box; header_box; items_box]
                     /\ items_paragraphs_of (items sec) items_box)
                sections (cards_on sl)).
Proof.
  split.
  - intros. do 7 eexists.
    split; [apply add_two_column_slide_run|].
    split; [apply cards_on_two_column|].
    split; apply items_paragraphs_of_text_box.
  - intros. eexists.
    split; [apply add_content_slide_with_sections_run|].
    rewrite cards_on_sectioned. apply cards_layout_items_paragraphs.
Qed.

(** C5.  [add_two_column_slide] with left items ["a", "b"] and right items
    ["c"] returns a slide with two panels; the left content text box has
    exactly 2 paragraphs, the right one exactly 1, and the panels are
    filled LIGHT_GRAY and NAVY, which differ. *)
Theorem two_column_scenario fs prs title left_title right_title :
  exists sl left_box left_header left_content
         right_box right_header right_content,
    add_two_column_slide fs prs title left_title ["a"; "b"] right_title ["c"]
    = Returned sl (append_slide prs sl)
    /\ cards_on sl = [[left_box; left_header; left_content];
                      [right_box; right_header; right_content]]
    /\ kind left_content = TextBox
    /\ List.length (paragraphs (text_frame left_content)) = 2%nat
    /\ texts left_content = ["a"; "b"]
    /\ kind right_content = TextBox
    /\ List.length (paragraphs (text_frame right_content)) = 1%nat
    /\ texts right_content = ["c"]
    /\ fill left_box = Solid (Some LIGHT_GRAY)
    /\ fill right_box = Solid (Some NAVY)
    /\ fill left_box <> fill right_box.
Proof.
  do 7 eexists.
  split; [apply add_two_column_slide_run|].
  split; [apply cards_on_two_column|].
  repeat (split; [reflexivity|]). discriminate.
Qed.

(** ** Card offsets and badge numbers *)

Lemma map_cards_layout {B} (obs : list shape -> B) (g : Z -> B) :
  (forall i sec, obs (card_layout i sec) = g i) ->
  forall sections i,
    map obs (cards_layout i sections)
    = map (fun k => g (i + Z.of_nat k)) (seq 0 (List.length sections)).
Proof.
  intros Hg. induction sections as [|sec rest IH]; intros i; [reflexivity|].
  cbn [cards_layout List.length map seq].
  rewrite Hg, IH, <- seq_shift, map_map, Z.add_0_r. f_equal.
  apply map_ext. intros k. f_equal. lia.
Qed.

Lemma badge_number_card_layout i sec :
  badge_number (card_layout i sec) = Some [str (i + 1)].
Proof.
  unfold badge_number, card_layout, text_box, is_oval, is_textbox; simpl.
  now rewrite Z.eqb_refl.
Qed.

Lemma card_offsets_layout sections : forall i,
  flat_map (fun card => match card with
                        | panel :: _ => [left panel]
                        | [] => []
                        end)
           (cards_layout i sections)
  = map (fun k => Inches (x_pos (i + Z.of_nat k)))
        (seq 0 (List.length sections)).
Proof.
  induction sections as [|sec rest IH]; intros i; [reflexivity|].
  cbn [cards_layout List.length flat_map seq map]. unfold card_layout at 1.
  cbn [left app]. rewrite IH, <- seq_shift, map_map, Z.add_0_r. f_equal.
  apply map_ext. intros k. do 2 f_equal. lia.
Qed.

(** The card painted for section [i] has its left edge at
    [Inches(x_pos)], whatever the number of sections. *)
Lemma card_offsets_sectioned fs title sections personalized_for :
  card_offsets (sectioned_layout fs title sections personalized_for)
  = map (fun k => Inches (x_pos (Z.of_nat k))) (seq 0 (List.length sections)).
Proof.
  unfold card_offsets. rewrite cards_on_sectioned.
  apply card_offsets_layout.
Qed.

(** C6.  The badge of card [i] shows the decimal rendering of [i + 1]; with
    three sections the slide has three cards, at [start_x],
    [start_x + (section_width + section_gap)] and
    [start_x + 2 * (section_width + section_gap)] (in EMU), numbered "1",
    "2", "3" in that order. *)
Theorem badge_numbers_in_order :
  (forall fs prs title sections personalized_for,
      exists sl,
        add_content_slide_with_sections fs prs title sections personalized_for
        = Returned sl (append_slide prs sl)
        /\ map badge_number (cards_on sl)
           = map (fun i => Some [str (Z.of_nat i + 1)])
                 (seq 0 (List.length sections)))
  /\ (forall fs prs title section_a section_b section_c personalized_for,
         exists sl,
           add_content_slide_with_sections fs prs title
             [section_a; section_b; section_c] personalized_for
           = Returned sl (append_slide prs sl)
           /\ List.length (cards_on sl) = 3%nat
           /\ card_offsets sl
              = [Inches start_x;
                 Inches start_x + Inches (section_width + section_gap);
                 Inches start_x + 2 * Inches (section_width + section_gap)]
           /\ map badge_number (cards_on sl)
              = [Some ["1"]; Some ["2"]; Some ["3"]]).
Proof.
  split; intros; eexists;
    (split; [apply add_content_slide_with_sections_run|]).
  - rewrite cards_on_sectioned.
    apply (map_cards_layout badge_number (fun i => Some [str (i + 1)])).
    exact badge_number_card_layout.
  - rewrite card_offsets_sectioned, cards_on_sectioned.
    split; [reflexivity|]. split.
    + vm_compute. reflexivity.
    + rewrite (map_cards_layout badge_number (fun i => Some [str (i + 1)]))
        by exact badge_number_card_layout.
      reflexivity.
Qed.

(** ** Falsy optional arguments *)

(** C10.  The tagline and the personalization note are tested for
    truthiness: the empty string behaves exactly like no value.  Each
    renderer returns the same outcome for [""] as for [None]; the title
    slide then has its two text boxes (title and subtitle) and no tagline
    text box, the sectioned slide the title text box and three text boxes
    per card and no personalization text box. *)
Theorem empty_string_is_no_value fs prs title :
  (forall subtitle,
      add_title_slide fs prs title subtitle (Some "")
      = add_title_slide fs prs title subtitle None
      /\ exists sl,
           add_title_slide fs prs title subtitle (Some "")
           = Returned sl (append_slide prs sl)
           /\ map texts (filter is_textbox sl) = [[title]; [subtitle]])
  /\ (forall sections,
         add_content_slide_with_sections fs prs title sections (Some "")
         = add_content_slide_with_sections fs prs title sections None
         /\ exists sl,
              add_content_slide_with_sections fs prs title sections (Some "")
              = Returned sl (append_slide prs sl)
              /\ count is_textbox sl = (1 + 3 * List.length sections)%nat).
Proof.
  split.
  - intros subtitle. split; [reflexivity|].
    eexists. split; [apply add_title_slide_run|].
    unfold title_slide_layout, logo. now destruct (fs LOGO_PATH).
  - intros sections. split; [reflexivity|].
    eexists. split; [apply add_content_slide_with_sections_run|].
    apply count_sectioned_textboxes.
Qed.

(** ** The title slide without tagline and without logo *)

(** C2 (as amended).  [add_title_slide] with a title and a subtitle, no
    tagline and the logo unavailable returns a slide of exactly 5 shapes:
    background, accent bar, title text box, subtitle text box and bottom
    bar, in that order.  Its only text boxes are the title's and the
    subtitle's: there is no tagline text box and no personalization text
    box. *)
Theorem title_slide_without_tagline fs prs title subtitle e
    (Hlogo : fs LOGO_PATH = inl e) :
  exists sl,
    add_title_slide fs prs title subtitle None
    = Returned sl (append_slide prs sl)
    /\ List.length sl = 5%nat
    /\ map kind sl
       = [AutoShape RECTANGLE; AutoShape RECTANGLE; TextBox; TextBox;
          AutoShape RECTANGLE]
    /\ count is_textbox sl = 2%nat
    /\ map texts (filter is_textbox sl) = [[title]; [subtitle]].
Proof.
  eexists. split; [apply add_title_slide_run|].
  unfold title_slide_layout, logo. rewrite Hlogo.
  repeat split.
Qed.

Lemma title_slide_without_tagline_witness :
  exists sl,
    add_title_slide no_logo prs0 "A" "B" None
    = Returned sl (append_slide prs0 sl)
    /\ List.length sl = 5%nat
    /\ map kind sl
       = [AutoShape RECTANGLE; AutoShape RECTANGLE; TextBox; TextBox;
          AutoShape RECTANGLE]
    /\ count is_textbox sl = 2%nat
    /\ map texts (filter is_textbox sl) = [["A"]; ["B"]].
Proof.
  apply (title_slide_without_tagline no_logo prs0 "A" "B"
           (FileNotFoundError LOGO_PATH)).
  reflexivity.
Defined.

(** The scenario of C2 as the specification has it: the slide does not
    have 4 shapes. *)
Lemma title_slide_not_four_shapes :
  ~ (exists sl prs',
        add_title_slide no_logo prs0 "A" "B" None = Returned sl prs'
        /\ List.length sl = 4%nat).
Proof.
  intros (sl & prs' & Hrun & Hlen).
  rewrite add_title_slide_run in Hrun. injection Hrun as <- _.
  discriminate Hlen.
Qed.

(** ** Even spacing of the cards *)

Lemma spacing_iter a d n :
  let st := N.iter n (fun st => (fst st + 1,
                                 snd st && evenly_spaced_at a d (fst st)))
                   (0, true) in
  fst st = Z.of_N n
  /\ (snd st = true ->
      forall i, 0 <= i < Z.of_N n -> evenly_spaced_at a d i = true).
Proof.
  induction n as [|n IH] using N.peano_ind.
  - simpl. split; [reflexivity | intros; lia].
  - rewrite N.iter_succ. cbv zeta in IH |- *.
    destruct IH as [Hfst Hsnd]. cbn [fst snd]. split; [lia|].
    intros [Hall Hlast]%andb_prop i Hi.
    destruct (Z.eq_dec i (Z.of_N n)) as [->|Hne].
    + now rewrite <- Hfst.
    + apply Hsnd; [exact Hall | lia].
Qed.

Lemma spacing_holds_sound n :
  spacing_holds n = true ->
  forall i, 0 <= i < Z.of_N n ->
    Inches (x_pos i)
    = Inches start_x + i * Inches (section_width + section_gap).
Proof.
  unfold spacing_holds. cbv zeta. intros Hn i Hi.
  apply Z.eqb_eq. exact (proj2 (spacing_iter _ _ n) Hn i Hi).
Qed.

Lemma spacing_holds_100000 : spacing_holds 100000 = true.
Proof. vm_compute. reflexivity. Qed.





(** ** The logo is best effort *)

Lemma without_pictures_app (a b : slide) :
  without_pictures (a ++ b) = without_pictures a ++ without_pictures b.
Proof. apply filter_app. Qed.

Lemma without_pictures_logo fs x y h : without_pictures (logo fs x y h) = [].
Proof. unfold logo. now destruct (fs LOGO_PATH). Qed.

Lemma logo_missing fs e x y h : fs LOGO_PATH = inl e -> logo fs x y h = [].
Proof. unfold logo. now intros ->. Qed.

Lemma without_pictures_cards sections : forall i,
  without_pictures (List.concat (cards_layout i sections))
  = List.concat (cards_layout i sections).
Proof.
  induction sections as [|sec rest IH]; intros i; [reflexivity|].
  cbn [cards_layout List.concat].
  now rewrite without_pictures_app, IH.
Qed.

Lemma count_pictures_without sl : count is_picture (without_pictures sl) = 0%nat.
Proof.
  unfold count, without_pictures.
  induction sl as [|sh sl IH]; simpl; [reflexivity|].
  destruct (is_picture sh) eqn:Hsh; simpl; [exact IH|].
  now rewrite Hsh.
Qed.

Section LogoFailure.

Variables (fs fs' : filesystem) (e : exn).
Hypothesis Hlogo : fs LOGO_PATH = inl e.

Lemma title_slide_layout_without_logo title subtitle tagline :
  title_slide_layout fs title subtitle tagline
  = without_pictures (title_slide_layout fs' title subtitle tagline).
Proof.
  unfold title_slide_layout.
  rewrite !without_pictures_app, without_pictures_logo,
    (logo_missing fs e) by exact Hlogo.
  destruct tagline as [t|]; [destruct (truthy (Some t))|]; reflexivity.
Qed.

Lemma header_layout_without_logo :
  header_layout fs = without_pictures (header_layout fs').
Proof.
  unfold header_layout.
  now rewrite without_pictures_app, without_pictures_logo,
    (logo_missing fs e) by exact Hlogo.
Qed.

Lemma two_column_layout_without_logo title left_title left_items
    right_title right_items :
  two_column_layout fs title left_title left_items right_title right_items
  = without_pictures
      (two_column_layout fs' title left_title left_items right_title
         right_items).
Proof.
  unfold two_column_layout.
  now rewrite !without_pictures_app, <- header_layout_without_logo.
Qed.

Lemma sectioned_layout_without_logo title sections personalized_for :
  sectioned_layout fs title sections personalized_for
  = without_pictures (sectioned_layout fs' title sections personalized_for).
Proof.
  unfold sectioned_layout.
  rewrite !without_pictures_app, <- header_layout_without_logo,
    without_pictures_cards.
  destruct personalized_for as [t|]; [destruct (truthy (Some t))|];
    reflexivity.
Qed.

End LogoFailure.

(** C4.  When loading the logo fails, with whatever exception, each of the
    three renderers still returns its slide, and that slide is the one
    rendered in any other world with the pictures taken away: the shapes
    other than the logo are the same in number, order, position and
    content, and the slide has no picture. *)
Theorem logo_failure_is_harmless fs fs' prs e
    (Hlogo : fs LOGO_PATH = inl e) :
  (forall title subtitle tagline,
      exists sl sl',
        add_title_slide fs prs title subtitle tagline
        = Returned sl (append_slide prs sl)
        /\ add_title_slide fs' prs title subtitle tagline
           = Returned sl' (append_slide prs sl')
        /\ sl = without_pictures sl'
        /\ count is_picture sl = 0%nat)
  /\ (forall title left_title left_items right_title right_items,
         exists sl sl',
           add_two_column_slide fs prs title left_title left_items
             right_title right_items
           = Returned sl (append_slide prs sl)
           /\ add_two_column_slide fs' prs title left_title left_items
                right_title right_items
              = Returned sl' (append_slide prs sl')
           /\ sl = without_pictures sl'
           /\ count is_picture sl = 0%nat)
  /\ (forall title sections personalized_for,
         exists sl sl',
           add_content_slide_with_sections fs prs title sections
             personalized_for
           = Returned sl (append_slide prs sl)
           /\ add_content_slide_with_sections fs' prs title sections
                personalized_for
              = Returned sl' (append_slide prs sl')
           /\ sl = without_pictures sl'
           /\ count is_picture sl = 0%nat).
Proof.
  split; [|split]; intros; do 2 eexists.
  - split; [apply add_title_slide_run|].
    split; [apply add_title_slide_run|].
    rewrite (title_slide_layout_without_logo fs fs' e Hlogo).
    split; [reflexivity | apply count_pictures_without].
  - split; [apply add_two_column_slide_run|].
    split; [apply add_two_column_slide_run|].
    rewrite (two_column_layout_without_logo fs fs' e Hlogo).
    split; [reflexivity | apply count_pictures_without].
  - split; [apply add_content_slide_with_sections_run|].
    split; [apply add_content_slide_with_sections_run|].
    rewrite (sectioned_layout_without_logo fs fs' e Hlogo).
    split; [reflexivity | apply count_pictures_without].
Qed.

Lemma logo_failure_is_harmless_witness :
  (forall title subtitle tagline,
      exists sl sl',
        add_title_slide no_logo prs0 title subtitle tagline
        = Returned sl (append_slide prs0 sl)
        /\ add_title_slide banner_logo prs0 title subtitle tagline
           = Returned sl' (append_slide prs0 sl')
        /\ sl = without_pictures sl'
        /\ count is_picture sl = 0%nat)
  /\ (forall title left_title left_items right_title right_items,
         exists sl sl',
           add_two_column_slide no_logo prs0 title left_title left_items
             right_title right_items
           = Returned sl (append_slide prs0 sl)
           /\ add_two_column_slide banner_logo prs0 title left_title
                left_items right_title right_items
              = Returned sl' (append_slide prs0 sl')
           /\ sl = without_pictures sl'
           /\ count is_picture sl = 0%nat)
  /\ (forall title sections personalized_for,
         exists sl sl',
           add_content_slide_with_sections no_logo prs0 title sections
             personalized_for
           = Returned sl (append_slide prs0 sl)
           /\ add_content_slide_with_sections banner_logo prs0 title sections
                personalized_for
              = Returned sl' (append_slide prs0 sl')
           /\ sl = without_pictures sl'
           /\ count is_picture sl = 0%nat).
Proof.
  apply (logo_failure_is_harmless no_logo banner_logo prs0
           (FileNotFoundError LOGO_PATH)).
  reflexivity.
Defined.

(** ** Determinism *)

Lemma logo_agrees fs1 fs2 x y h :
  fs1 LOGO_PATH = fs2 LOGO_PATH -> logo fs1 x y h = logo fs2 x y h.
Proof. unfold logo. now intros ->. Qed.

(** C7.  Rendering is a function of the arguments and of the logo file
    alone: two runs of a renderer on the same arguments, in worlds that
    agree on the logo file and on any two presentations (fresh or not),
    both return, and return the same slide: the same shapes with the same
    positions, sizes, colours and texts. *)
Theorem rendering_is_deterministic fs1 fs2 prs1 prs2
    (Hlogo : fs1 LOGO_PATH = fs2 LOGO_PATH) :
  (forall title subtitle tagline,
      exists sl,
        rendered (add_title_slide fs1 prs1 title subtitle tagline) = Some sl
        /\ rendered (add_title_slide fs2 prs2 title subtitle tagline)
           = Some sl)
  /\ (forall title left_title left_items right_title right_items,
         exists sl,
           rendered (add_two_column_slide fs1 prs1 title left_title left_items
                       right_title right_items) = Some sl
           /\ rendered (add_two_column_slide fs2 prs2 title left_title
                          left_items right_title right_items) = Some sl)
  /\ (forall title sections personalized_for,
         exists sl,
           rendered (add_content_slide_with_sections fs1 prs1 title sections
                       personalized_for) = Some sl
           /\ rendered (add_content_slide_with_sections fs2 prs2 title
                          sections personalized_for) = Some sl).
Proof.
  split; [|split]; intros; eexists.
  - rewrite !add_title_slide_run. split; [reflexivity|]. cbn [rendered].
    unfold title_slide_layout. now rewrite (logo_agrees fs1 fs2).
  - rewrite !add_two_column_slide_run. split; [reflexivity|]. cbn [rendered].
    unfold two_column_layout, header_layout.
    now rewrite (logo_agrees fs1 fs2).
  - rewrite !add_content_slide_with_sections_run. split; [reflexivity|].
    cbn [rendered]. unfold sectioned_layout, header_layout.
    now rewrite (logo_agrees fs1 fs2).
Qed.

Lemma rendering_is_deterministic_witness :
  (forall title subtitle tagline,
      exists sl,
        rendered (add_title_slide banner_logo prs0 title subtitle tagline)
        = Some sl
        /\ rendered (add_title_slide banner_logo (append_slide prs0 [])
                       title subtitle tagline)
           = Some sl)
  /\ (forall title left_title left_items right_title right_items,
         exists sl,
           rendered (add_two_column_slide banner_logo prs0 title left_title
                       left_items right_title right_items) = Some sl
           /\ rendered (add_two_column_slide banner_logo
                          (append_slide prs0 []) title left_title
                          left_items right_title right_items) = Some sl)
  /\ (forall title sections personalized_for,
         exists sl,
           rendered (add_content_slide_with_sections banner_logo prs0 title
                       sections personalized_for) = Some sl
           /\ rendered (add_content_slide_with_sections banner_logo
                          (append_slide prs0 []) title sections
                          personalized_for) = Some sl).
Proof.
  apply (rendering_is_deterministic banner_logo banner_logo prs0
           (append_slide prs0 [])).
  reflexivity.
Defined.

(** ** The deck on its canvas *)

Lemma script_run fs :
  exists sl1 sl2 sl3 sl4,
    script fs
    = Returned sl4
        (mkPresentation (Inches 13.333) (Inches 7.5) [sl1; sl2; sl3; sl4])
    /\ sl1 = title_slide_layout fs deck_title
               "Distribution Strategy | Investor Engagement | AUM Expansion"
               (Some "Panagora Asset Management  |  Strategic Discussion  |  December 2024")
    /\ sl2 = two_column_layout fs
               "The Quantitative Investing Landscape & Panagora's Edge"
               "MARKET DYNAMICS" market_dynamics
               "PANAGORA DIFFERENTIATORS" differentiators
    /\ sl3 = sectioned_layout fs
               "AI-Era Distribution: Intelligent Lead Management & Engagement"
               distribution_sections
               (Some "Created for Discussion with Tim Stanton")
    /\ sl4 = sectioned_layout fs
               "Generating Buzz: Thought Leadership & Publicity for Modern Investors"
               buzz_sections None.
Proof.
  do 4 eexists. unfold script.
  rewrite add_title_slide_run. cbn [and_then].
  rewrite add_two_column_slide_run. cbn [and_then].
  rewrite add_content_slide_with_sections_run. cbn [and_then].
  rewrite add_content_slide_with_sections_run.
  repeat split.
Qed.

Lemma in_canvas_shape prs k x y w h f l tf :
  in_canvas prs (mkShape k x y w h f l tf)
  = (0 <=? x) && (0 <=? y) && (x + w <=? slide_width prs)
    && (y + h <=? slide_height prs).
Proof. reflexivity. Qed.

Lemma in_canvas_logo prs fs x y h :
  forallb (in_canvas prs) (logo fs x y h)
  = match fs LOGO_PATH with
    | inl _ => true
    | inr img =>
        (0 <=? x) && (0 <=? y) && (x + scaled_cx img h <=? slide_width prs)
        && (y + h <=? slide_height prs)
    end.
Proof.
  unfold logo. destruct (fs LOGO_PATH); [reflexivity|].
  cbn [forallb]. rewrite in_canvas_shape. apply andb_true_r.
Qed.

(** C8 (as amended).  In the deck of the script, on the 13.333in by 7.5in
    canvas: every shape other than the logo picture lies within the canvas,
    whether the logo loads or not; every shape, the logo included, has its
    top left corner on the canvas and its bottom edge within it; and the
    whole deck lies within the canvas exactly when the logo, if it loads,
    is narrow enough at its two sizes. *)
Theorem reference_deck_on_canvas fs :
  exists sl prs',
    script fs = Returned sl prs'
    /\ slide_width prs' = slide_width prs0
    /\ slide_height prs' = slide_height prs0
    /\ List.length (slides prs') = 4%nat
    /\ forallb (fun sl => forallb (in_canvas prs0) (without_pictures sl))
               (slides prs') = true
    /\ forallb (fun sl => forallb (anchored_in_canvas prs0) sl)
               (slides prs') = true
    /\ forallb (fun sl => forallb (in_canvas prs0) sl) (slides prs')
       = match fs LOGO_PATH with
         | inl _ => true
         | inr img =>
             (Inches 10.5 + scaled_cx img (Inches 0.8) <=? Inches 13.333)
             && (Inches 11.5 + scaled_cx img (Inches 0.7) <=? Inches 13.333)
         end.
Proof.
  destruct (script_run fs) as (sl1 & sl2 & sl3 & sl4 & Hrun & -> & -> & -> & ->).
  do 2 eexists. split; [exact Hrun|].
  do 3 (split; [reflexivity|]).
  cbn [slides forallb].
  unfold title_slide_layout, two_column_layout, sectioned_layout,
    header_layout.
  split; [|split].
  - unfold logo. destruct (fs LOGO_PATH) as [e|[f]]; vm_compute; reflexivity.
  - unfold logo. destruct (fs LOGO_PATH) as [e|[f]]; vm_compute; reflexivity.
  - rewrite !forallb_app, !in_canvas_logo.
    destruct (fs LOGO_PATH) as [e|img]; [vm_compute; reflexivity|].
    change (slide_width prs0) with (Inches 13.333).
    set (fits1 := Inches 10.5 + scaled_cx img (Inches 0.8) <=? Inches 13.333).
    set (fits2 := Inches 11.5 + scaled_cx img (Inches 0.7) <=? Inches 13.333).
    clearbody fits1 fits2. clear img.
    destruct fits1, fits2; vm_compute; reflexivity.
Qed.

(** With the banner logo the picture on the title slide passes the right
    edge of the canvas: its right edge is at 13258800 EMU, the canvas ends
    at 12191695 EMU. *)
Lemma banner_logo_off_canvas :
  exists sl sh,
    nth_error (slides (presentation_of (script banner_logo))) 0 = Some sl
    /\ nth_error sl 2 = Some sh
    /\ kind sh = Picture LOGO_PATH
    /\ left sh + width sh = 13258800
    /\ slide_width prs0 = 12191695
    /\ in_canvas prs0 sh = false.
Proof.
  destruct (script_run banner_logo)
    as (sl1 & sl2 & sl3 & sl4 & Hrun & -> & -> & -> & ->).
  rewrite Hrun. do 2 eexists.
  cbn [presentation_of slides nth_error].
  split; [reflexivity|]. split; [reflexivity|].
  repeat split; vm_compute; reflexivity.
Qed.

(** Before truncation to EMU the offsets are floats, and already for the
    third and fourth card their float difference is not the float
    [section_width + section_gap]; the positions on the slide, in EMU, are
    what the statements above are about. *)
Lemma x_pos_float_difference :
  PrimFloat.eqb (x_pos 3 - x_pos 2) (section_width + section_gap) = false
  /\ Inches (x_pos 3) - Inches (x_pos 2)
     = Inches (section_width + section_gap).
Proof. split; vm_compute; reflexivity. Qed.

(** * Further properties of the renderers *)

(** ** Effect on the presentation *)

(** X1.  Each renderer returns, for every argument and whatever loading
    the logo does, and leaves the presentation with exactly one more
    slide: the returned one, after the slides that were there, on the same
    canvas. *)
Theorem renderers_append_one_slide fs prs title :
  (forall subtitle tagline,
      exists sl prs',
        add_title_slide fs prs title subtitle tagline = Returned sl prs'
        /\ slides prs' = slides prs ++ [sl]
        /\ slide_width prs' = slide_width prs
        /\ slide_height prs' = slide_height prs)
  /\ (forall left_title left_items right_title right_items,
         exists sl prs',
           add_two_column_slide fs prs title left_title left_items
             right_title right_items = Returned sl prs'
           /\ slides prs' = slides prs ++ [sl]
           /\ slide_width prs' = slide_width prs
           /\ slide_height prs' = slide_height prs)
  /\ (forall sections personalized_for,
         exists sl prs',
           add_content_slide_with_sections fs prs title sections
             personalized_for = Returned sl prs'
           /\ slides prs' = slides prs ++ [sl]
           /\ slide_width prs' = slide_width prs
           /\ slide_height prs' = slide_height prs).
Proof.
  split; [|split]; intros; do 2 eexists.
  - split; [apply add_title_slide_run|]. repeat split.
  - split; [apply add_two_column_slide_run|]. repeat split.
  - split; [apply add_content_slide_with_sections_run|]. repeat split.
Qed.

(** ** Numbers of shapes *)

Lemma length_logo fs x y h : List.length (logo fs x y h) = logo_count fs.
Proof. unfold logo, logo_count. now destruct (fs LOGO_PATH). Qed.

Lemma length_concat_cards sections : forall i,
  List.length (List.concat (cards_layout i sections))
  = (5 * List.length sections)%nat.
Proof.
  induction sections as [|sec rest IH]; intros i; [reflexivity|].
  cbn [cards_layout List.concat List.length].
  rewrite length_app, IH. simpl. lia.
Qed.

(** X2.  The number of shapes each renderer paints: the title slide has 5
    shapes, one more if the logo loads and one more for a truthy tagline;
    the two-column slide has 9 shapes, one more if the logo loads, however
    many items the columns have; the sectioned slide has 3 shapes, one more
    if the logo loads, one more for a truthy personalization note, and 5
    per section. *)
Theorem shape_counts fs prs title :
  (forall subtitle tagline,
      exists sl,
        add_title_slide fs prs title subtitle tagline
        = Returned sl (append_slide prs sl)
        /\ List.length sl
           = (5 + logo_count fs + (if truthy tagline then 1 else 0))%nat)
  /\ (forall left_title left_items right_title right_items,
         exists sl,
           add_two_column_slide fs prs title left_title left_items
             right_title right_items
           = Returned sl (append_slide prs sl)
           /\ List.length sl = (9 + logo_count fs)%nat)
  /\ (forall sections personalized_for,
         exists sl,
           add_content_slide_with_sections fs prs title sections
             personalized_for
           = Returned sl (append_slide prs sl)
           /\ List.length sl
              = (3 + logo_count fs
                 + (if truthy personalized_for then 1 else 0)
                 + 5 * List.length sections)%nat).
Proof.
  split; [|split]; intros; eexists.
  - split; [apply add_title_slide_run|].
    unfold title_slide_layout. rewrite !length_app, length_logo.
    destruct tagline as [t|]; [destruct (truthy (Some t))|]; simpl; lia.
  - split; [apply add_two_column_slide_run|].
    unfold two_column_layout, header_layout.
    rewrite !length_app, length_logo. simpl. lia.
  - split; [apply add_content_slide_with_sections_run|].
    unfold sectioned_layout, header_layout.
    rewrite !length_app, length_logo, length_concat_cards.
    destruct personalized_for as [t|]; [destruct (truthy (Some t))|];
      simpl; lia.
Qed.

(** ** The paragraphs the item loops write *)

Lemma styled_from_column color its : forall j,
  0 < j ->
  styled_from (column_style color) j its
  = map (fun item => item_paragraph (Pt 14) color (Pt 10) item) its.
Proof.
  induction its as [|item its IH]; intros j Hj; [reflexivity|].
  cbn [styled_from map]. rewrite IH by lia. f_equal.
  unfold column_style, item_paragraph; simpl.
  destruct (Z.gtb_spec j 0); [reflexivity | lia].
Qed.

Lemma styled_from_section its : forall j,
  0 < j ->
  styled_from section_style j its
  = map (fun item => item_paragraph (Pt 12) CHARCOAL (Pt 8)
                       (String.append "» " item)) its.
Proof.
  induction its as [|item its IH]; intros j Hj; [reflexivity|].
  cbn [styled_from map]. rewrite IH by lia. f_equal.
  unfold section_style, item_paragraph; simpl.
  destruct (Z.gtb_spec j 0); [reflexivity | lia].
Qed.

Lemma column_paragraphs_written color its :
  item_paragraphs (column_style color) 0 its [empty_paragraph]
  = written_items (Pt 14) color (Pt 10) (fun item => item) its.
Proof.
  rewrite item_paragraphs_0. destruct its as [|item its]; [reflexivity|].
  cbn [styled_from written_items]. now rewrite styled_from_column by lia.
Qed.

Lemma section_paragraphs_written its :
  item_paragraphs section_style 0 its [empty_paragraph]
  = written_items (Pt 12) CHARCOAL (Pt 8) (String.append "» ") its.
Proof.
  rewrite item_paragraphs_0. destruct its as [|item its]; [reflexivity|].
  cbn [styled_from written_items]. now rewrite styled_from_section by lia.
Qed.

(** X3.  The two content text boxes of the two-column slide hold their
    items verbatim, one paragraph per item in order, at 14pt: CHARCOAL on
    the left, WHITE on the right; the first paragraph has no space before
    it and every later one 10pt.  With no item the box keeps its one empty
    paragraph. *)
Theorem two_column_paragraphs fs prs title left_title left_items
    right_title right_items :
  exists sl left_box left_header left_content
         right_box right_header right_content,
    add_two_column_slide fs prs title left_title left_items
      right_title right_items
    = Returned sl (append_slide prs sl)
    /\ cards_on sl = [[left_box; left_header; left_content];
                      [right_box; right_header; right_content]]
    /\ texts left_header = [left_title]
    /\ texts right_header = [right_title]
    /\ paragraphs (text_frame left_content)
       = written_items (Pt 14) CHARCOAL (Pt 10) (fun item => item) left_items
    /\ paragraphs (text_frame right_content)
       = written_items (Pt 14) WHITE (Pt 10) (fun item => item) right_items.
Proof.
  do 7 eexists.
  split; [apply add_two_column_slide_run|].
  split; [apply cards_on_two_column|].
  do 2 (split; [reflexivity|]).
  split; apply column_paragraphs_written.
Qed.

Lemma cards_layout_written sections : forall i,
  Forall2
    (fun sec card =>
       exists panel circle num_box header_box items_box,
         card = [panel; circle; num_box; header_box; items_box]
         /\ paragraphs (text_frame items_box)
            = written_items (Pt 12) CHARCOAL (Pt 8) (String.append "» ")
                (items sec))
    sections (cards_layout i sections).
Proof.
  induction sections as [|sec rest IH]; intros i; simpl; constructor.
  - unfold card_layout. do 5 eexists. split; [reflexivity|].
    apply section_paragraphs_written.
  - apply IH.
Qed.

(** X4.  The items text box of every card of the sectioned slide holds one
    paragraph per item in order, each showing the bullet glyph, a space and
    the item, at 12pt in CHARCOAL; the first paragraph has no space before
    it and every later one 8pt.  With no item the box keeps its one empty
    paragraph, without bullet. *)
Theorem section_paragraphs fs prs title sections personalized_for :
  exists sl,
    add_content_slide_with_sections fs prs title sections personalized_for
    = Returned sl (append_slide prs sl)
    /\ Forall2
         (fun sec card =>
            exists panel circle num_box header_box items_box,
              card = [panel; circle; num_box; header_box; items_box]
              /\ paragraphs (text_frame items_box)
                 = written_items (Pt 12) CHARCOAL (Pt 8)
                     (String.append "» ") (items sec))
         sections (cards_on sl).
Proof.
  eexists. split; [apply add_content_slide_with_sections_run|].
  rewrite cards_on_sectioned. apply cards_layout_written.
Qed.

(** ** The tagline of the title slide *)

Lemma truthy_nonempty t : t <> "" -> truthy (Some t) = true.
Proof.
  intros Ht. unfold truthy. now rewrite (proj2 (String.eqb_neq t "") Ht).
Qed.

(** X5.  With a non-empty tagline the title slide has three text boxes,
    holding the title, the subtitle and the tagline, in that paint order;
    the tagline box is the last shape painted, right after the bottom bar,
    and lies within that bar. *)
Theorem title_slide_tagline fs prs title subtitle tagline
    (Htagline : tagline <> "") :
  exists sl tag_box bottom rest,
    add_title_slide fs prs title subtitle (Some tagline)
    = Returned sl (append_slide prs sl)
    /\ rev sl = tag_box :: bottom :: rest
    /\ kind tag_box = TextBox
    /\ texts tag_box = [tagline]
    /\ kind bottom = AutoShape RECTANGLE
    /\ fill bottom = Solid (Some ROYAL_BLUE)
    /\ inside tag_box bottom = true
    /\ map texts (filter is_textbox sl) = [[title]; [subtitle]; [tagline]].
Proof.
  do 4 eexists. split; [apply add_title_slide_run|].
  unfold title_slide_layout. rewrite (truthy_nonempty _ Htagline).
  split; [rewrite !rev_app_distr; reflexivity|].
  do 4 (split; [reflexivity|]).
  split; [vm_compute; reflexivity|].
  unfold logo. now destruct (fs LOGO_PATH).
Qed.

Lemma title_slide_tagline_witness :
  exists sl tag_box bottom rest,
    add_title_slide no_logo prs0 "A" "B" (Some "C")
    = Returned sl (append_slide prs0 sl)
    /\ rev sl = tag_box :: bottom :: rest
    /\ kind tag_box = TextBox
    /\ texts tag_box = ["C"]
    /\ kind bottom = AutoShape RECTANGLE
    /\ fill bottom = Solid (Some ROYAL_BLUE)
    /\ inside tag_box bottom = true
    /\ map texts (filter is_textbox sl) = [["A"]; ["B"]; ["C"]].
Proof.
  apply (title_slide_tagline no_logo prs0 "A" "B" "C"). discriminate.
Defined.

(** ** Slides on the canvas, for every argument *)

(** X6.  Whatever the texts, the tagline and the item lists, every shape of
    the title slide and of the two-column slide other than the logo picture
    lies within the 13.333in by 7.5in canvas, and the logo picture, if
    there is one, has its top left corner on the canvas and its bottom edge
    within it. *)
Theorem title_and_columns_on_canvas fs prs title :
  (forall subtitle tagline,
      exists sl,
        add_title_slide fs prs title subtitle tagline
        = Returned sl (append_slide prs sl)
        /\ forallb (in_canvas prs0) (without_pictures sl) = true
        /\ forallb (anchored_in_canvas prs0) sl = true)
  /\ (forall left_title left_items right_title right_items,
         exists sl,
           add_two_column_slide fs prs title left_title left_items
             right_title right_items
           = Returned sl (append_slide prs sl)
           /\ forallb (in_canvas prs0) (without_pictures sl) = true
           /\ forallb (anchored_in_canvas prs0) sl = true).
Proof.
  split; intros; eexists.
  - split; [apply add_title_slide_run|].
    unfold title_slide_layout, logo.
    destruct (fs LOGO_PATH) as [e|[f]];
      (destruct tagline as [t|]; [destruct (truthy (Some t))|]);
      split; vm_compute; reflexivity.
  - split; [apply add_two_column_slide_run|].
    unfold two_column_layout, header_layout, logo.
    destruct (fs LOGO_PATH) as [e|[f]]; split; vm_compute; reflexivity.
Qed.

Lemma in_canvas_card i sec :
  forallb (in_canvas prs0) (card_layout i sec)
  = forallb (in_canvas prs0) (card_layout i blank_section).
Proof. reflexivity. Qed.

Lemma cards_on_canvas sections :
  forallb (in_canvas prs0) (List.concat (cards_layout 0 sections))
  = (List.length sections <=? 3)%nat.
Proof.
  destruct sections as [|a [|b [|c [|d rest]]]];
    cbn [cards_layout List.concat]; rewrite ?forallb_app, ?in_canvas_card;
    vm_compute; reflexivity.
Qed.

(** X7.  The sectioned slide has room for three cards: its shapes other
    than the logo picture all lie within the 13.333in by 7.5in canvas
    exactly when there are at most 3 sections; from the fourth section on a
    card passes the right edge of the canvas, and the renderer still
    returns. *)
Theorem sectioned_slide_on_canvas fs prs title sections personalized_for :
  exists sl,
    add_content_slide_with_sections fs prs title sections personalized_for
    = Returned sl (append_slide prs sl)
    /\ forallb (in_canvas prs0) (without_pictures sl)
       = (List.length sections <=? 3)%nat.
Proof.
  eexists. split; [apply add_content_slide_with_sections_run|].
  unfold sectioned_layout, header_layout.
  rewrite !without_pictures_app, without_pictures_logo, without_pictures_cards.
  rewrite !forallb_app, cards_on_canvas.
  destruct personalized_for as [t|]; [destruct (truthy (Some t))|];
    destruct (List.length sections <=? 3)%nat; vm_compute; reflexivity.
Qed.

(** ** Gaps between the cards *)

Lemma gaps_step i a b rest :
  gaps (card_layout i a :: card_layout (i + 1) b :: rest)
  = (Inches (x_pos (i + 1)) - (Inches (x_pos i) + Inches section_width))
    :: gaps (card_layout (i + 1) b :: rest).
Proof. reflexivity. Qed.

Lemma gaps_cards_layout sections : forall i,
  0 <= i ->
  i + Z.of_nat (List.length sections) <= 100000 ->
  gaps (cards_layout i sections)
  = repeat (Inches section_gap) (List.length sections - 1).
Proof.
  induction sections as [|a rest IH]; intros i Hi Hn; [reflexivity|].
  destruct rest as [|b rest]; [reflexivity|].
  cbn [cards_layout]. rewrite gaps_step.
  change (card_layout (i + 1) b :: cards_layout (i + 1 + 1) rest)
    with (cards_layout (i + 1) (b :: rest)).
  cbn [List.length] in Hn, IH |- *. rewrite IH by lia.
  cbn [Nat.sub repeat]. rewrite Nat.sub_0_r. f_equal.
  rewrite !(spacing_holds_sound 100000 spacing_holds_100000) by lia.
  replace (Inches section_gap)
    with (Inches (section_width + section_gap) - Inches section_width)
    by (vm_compute; reflexivity).
  lia.
Qed.

(** X8.  On a sectioned slide of at most 100000 sections adjacent cards
    never touch: from the right edge of each card's rounded rectangle to
    the left edge of the next there are exactly [Inches(section_gap)],
    274320 EMU. *)
Theorem cards_are_a_gap_apart fs prs title sections personalized_for
    (Hsize : Z.of_nat (List.length sections) <= 100000) :
  exists sl,
    add_content_slide_with_sections fs prs title sections personalized_for
    = Returned sl (append_slide prs sl)
    /\ gaps (cards_on sl)
       = repeat (Inches section_gap) (List.length sections - 1)
    /\ Inches section_gap = 274320.
Proof.
  eexists. split; [apply add_content_slide_with_sections_run|].
  rewrite cards_on_sectioned.
  split; [apply gaps_cards_layout; lia | vm_compute; reflexivity].
Qed.

Lemma cards_are_a_gap_apart_witness :
  exists sl,
    add_content_slide_with_sections no_logo prs0 "T" buzz_sections None
    = Returned sl (append_slide prs0 sl)
    /\ gaps (cards_on sl)
       = repeat (Inches section_gap) (List.length buzz_sections - 1)
    /\ Inches section_gap = 274320.
Proof.
  apply (cards_are_a_gap_apart no_logo prs0 "T" buzz_sections None).
  simpl. lia.
Defined.

(** ** The personalization line *)

Lemma header_layout_no_textbox fs : filter is_textbox (header_layout fs) = [].
Proof. unfold header_layout, logo. now destruct (fs LOGO_PATH). Qed.

(** X9.  With a non-empty personalization note the sectioned slide paints
    the note's text box first and the title's text box over it, and the two
    boxes overlap: the note's box starts 1.1in from the top, the title's
    box ends 1.3in from the top. *)
Theorem personalization_under_title fs prs title sections note
    (Hnote : note <> "") :
  exists sl pers_box title_box rest,
    add_content_slide_with_sections fs prs title sections (Some note)
    = Returned sl (append_slide prs sl)
    /\ filter is_textbox sl = pers_box :: title_box :: rest
    /\ texts pers_box = [note]
    /\ texts title_box = [title]
    /\ overlap pers_box title_box = true
    /\ top pers_box = Inches 1.1
    /\ top title_box + height title_box = Inches 1.3.
Proof.
  do 4 eexists. split; [apply add_content_slide_with_sections_run|].
  unfold sectioned_layout. rewrite (truthy_nonempty _ Hnote).
  rewrite !filter_app, header_layout_no_textbox.
  split; [reflexivity|].
  do 2 (split; [reflexivity|]).
  repeat split; vm_compute; reflexivity.
Qed.

Lemma personalization_under_title_witness :
  exists sl pers_box title_box rest,
    add_content_slide_with_sections no_logo prs0 "T" [] (Some "N")
    = Returned sl (append_slide prs0 sl)
    /\ filter is_textbox sl = pers_box :: title_box :: rest
    /\ texts pers_box = ["N"]
    /\ texts title_box = ["T"]
    /\ overlap pers_box title_box = true
    /\ top pers_box = Inches 1.1
    /\ top title_box + height title_box = Inches 1.3.
Proof.
  apply (personalization_under_title no_logo prs0 "T" [] "N"). discriminate.
Defined.

(** ** The whole script and the logo *)

(** X10.  The script returns in every file system, with a deck of four
    slides, and the logo decides nothing but the pictures: the deck with
    its pictures taken away is the deck the script makes when the logo is
    missing. *)
Theorem script_without_logo fs :
  exists sl prs',
    script fs = Returned sl prs'
    /\ List.length (slides prs') = 4%nat
    /\ map without_pictures (slides prs')
       = slides (presentation_of (script no_logo)).
Proof.
  destruct (script_run fs) as (sl1 & sl2 & sl3 & sl4 & Hrun & -> & -> & -> & ->).
  destruct (script_run no_logo)
    as (nl1 & nl2 & nl3 & nl4 & Hno & -> & -> & -> & ->).
  do 2 eexists. split; [exact Hrun|]. split; [reflexivity|].
  rewrite Hno. cbn [slides presentation_of map].
  rewrite <- (title_slide_layout_without_logo no_logo fs
                (FileNotFoundError LOGO_PATH) eq_refl),
          <- (two_column_layout_without_logo no_logo fs
                (FileNotFoundError LOGO_PATH) eq_refl),
          <- !(sectioned_layout_without_logo no_logo fs
                 (FileNotFoundError LOGO_PATH) eq_refl).
  reflexivity.
Qed.

(** ** The parts of a card lie within the card *)

Lemma holds_below_iter test n :
  let st := N.iter n (fun st => (fst st + 1, snd st && test (fst st)))
                   (0, true) in
  fst st = Z.of_N n
  /\ (snd st = true -> forall i, 0 <= i < Z.of_N n -> test i = true).
Proof.
  induction n as [|n IH] using N.peano_ind.
  - simpl. split; [reflexivity | intros; lia].
  - rewrite N.iter_succ. cbv zeta in IH |- *.
    destruct IH as [Hfst Hsnd]. cbn [fst snd]. split; [lia|].
    intros [Hall Hlast]%andb_prop i Hi.
    destruct (Z.eq_dec i (Z.of_N n)) as [->|Hne].
    + now rewrite <- Hfst.
    + apply Hsnd; [exact Hall | lia].
Qed.

Lemma holds_below_sound test n :
  holds_below test n = true ->
  forall i, 0 <= i < Z.of_N n -> test i = true.
Proof. intros Hn. exact (proj2 (holds_below_iter test n) Hn). Qed.

Lemma card_parts_inside_10000 :
  holds_below (fun i => card_parts_inside (card_layout i blank_section)) 10000
  = true.
Proof. vm_compute. reflexivity. Qed.

Lemma card_parts_inside_layout i sec :
  card_parts_inside (card_layout i sec)
  = card_parts_inside (card_layout i blank_section).
Proof. reflexivity. Qed.

Lemma cards_layout_parts_inside sections : forall i,
  0 <= i ->
  i + Z.of_nat (List.length sections) <= 10000 ->
  forallb card_parts_inside (cards_layout i sections) = true.
Proof.
  induction sections as [|sec rest IH]; intros i Hi Hn; [reflexivity|].
  cbn [cards_layout forallb List.length] in Hn |- *.
  rewrite IH by lia. rewrite card_parts_inside_layout.
  rewrite (holds_below_sound _ 10000 card_parts_inside_10000) by lia.
  reflexivity.
Qed.

(** X11.  On a sectioned slide of at most 10000 sections every part of a
    card (the oval badge, the number text box, the header text box and the
    items text box) lies within the card's rounded rectangle. *)
Theorem card_parts_within_card fs prs title sections personalized_for
    (Hsize : Z.of_nat (List.length sections) <= 10000) :
  exists sl,
    add_content_slide_with_sections fs prs title sections personalized_for
    = Returned sl (append_slide prs sl)
    /\ forallb card_parts_inside (cards_on sl) = true.
Proof.
  eexists. split; [apply add_content_slide_with_sections_run|].
  rewrite cards_on_sectioned. apply cards_layout_parts_inside; lia.
Qed.

Lemma card_parts_within_card_witness :
  exists sl,
    add_content_slide_with_sections no_logo prs0 "T" distribution_sections
      (Some "N")
    = Returned sl (append_slide prs0 sl)
    /\ forallb card_parts_inside (cards_on sl) = true.
Proof.
  apply (card_parts_within_card no_logo prs0 "T" distribution_sections
           (Some "N")).
  simpl. lia.
Defined.

(** ** The two panels of the two-column slide *)

(** X12.  Whatever its arguments, the two-column slide has two panels of
    the same size, half an inch apart, and each panel holds its header and
    content text boxes within its rounded rectangle. *)
Theorem two_column_panels fs prs title left_title left_items
    right_title right_items :
  exists sl left_box left_header left_content
         right_box right_header right_content,
    add_two_column_slide fs prs title left_title left_items
      right_title right_items
    = Returned sl (append_slide prs sl)
    /\ cards_on sl = [[left_box; left_header; left_content];
                      [right_box; right_header; right_content]]
    /\ width left_box = width right_box
    /\ height left_box = height right_box
    /\ top left_box = top right_box
    /\ gaps (cards_on sl) = [Inches 0.5]
    /\ forallb card_parts_inside (cards_on sl) = true.
Proof.
  do 7 eexists.
  split; [apply add_two_column_slide_run|].
  rewrite cards_on_two_column.
  split; [reflexivity|].
  do 3 (split; [reflexivity|]).
  split; vm_compute; reflexivity.
Qed.

(** ** No reflow *)

(** X13.  The two-column slide is laid out the same for every text: the
    kinds, positions and sizes of its shapes, in paint order, do not depend
    on the title, the headers or the items, nor on how many items there
    are. *)
Theorem two_column_geometry_fixed fs prs prs' title left_title left_items
    right_title right_items title' left_title' left_items' right_title'
    right_items' :
  exists sl sl',
    add_two_column_slide fs prs title left_title left_items
      right_title right_items
    = Returned sl (append_slide prs sl)
    /\ add_two_column_slide fs prs' title' left_title' left_items'
         right_title' right_items'
       = Returned sl' (append_slide prs' sl')
    /\ map geometry sl = map geometry sl'.
Proof.
  do 2 eexists.
  split; [apply add_two_column_slide_run|].
  split; [apply add_two_column_slide_run|].
  unfold two_column_layout. rewrite !map_app. reflexivity.
Qed.

Lemma geometry_cards sections : forall sections' i,
  List.length sections = List.length sections' ->
  map geometry (List.concat (cards_layout i sections))
  = map geometry (List.concat (cards_layout i sections')).
Proof.
  induction sections as [|a rest IH]; intros [|b rest'] i Hlen;
    try discriminate Hlen; [reflexivity|].
  cbn [cards_layout List.concat]. rewrite !map_app.
  rewrite (IH rest' (i + 1)) by (injection Hlen; auto).
  reflexivity.
Qed.

(** X14.  The sectioned slide does not reflow either: two calls with as
    many sections and personalization notes that are both truthy or both
    falsy paint shapes of the same kinds at the same positions with the
    same sizes, whatever the title, the headers and the items. *)
Theorem sectioned_geometry_fixed fs prs prs' title sections personalized_for
    title' sections' personalized_for'
    (Hlen : List.length sections = List.length sections')
    (Hpers : truthy personalized_for = truthy personalized_for') :
  exists sl sl',
    add_content_slide_with_sections fs prs title sections personalized_for
    = Returned sl (append_slide prs sl)
    /\ add_content_slide_with_sections fs prs' title' sections'
         personalized_for'
       = Returned sl' (append_slide prs' sl')
    /\ map geometry sl = map geometry sl'.
Proof.
  do 2 eexists.
  split; [apply add_content_slide_with_sections_run|].
  split; [apply add_content_slide_with_sections_run|].
  unfold sectioned_layout. rewrite !map_app.
  rewrite (geometry_cards sections sections' 0 Hlen).
  revert Hpers.
  destruct personalized_for as [t|], personalized_for' as [t'|];
    try destruct (truthy (Some t)); try destruct (truthy (Some t'));
    intros Hpers; cbn in Hpers; try discriminate Hpers; reflexivity.
Qed.

Lemma sectioned_geometry_fixed_witness :
  exists sl sl',
    add_content_slide_with_sections no_logo prs0 "T" distribution_sections
      None
    = Returned sl (append_slide prs0 sl)
    /\ add_content_slide_with_sections no_logo prs0 "U" buzz_sections
         (Some "")
       = Returned sl' (append_slide prs0 sl')
    /\ map geometry sl = map geometry sl'.
Proof.
  apply (sectioned_geometry_fixed no_logo prs0 prs0 "T" distribution_sections
           None "U" buzz_sections (Some ""));
    reflexivity.
Defined.
